(** * go-mongo-store: the session store of [mongostore.go]

    A shallow embedding of the MongoDB-backed gorilla session store and the
    properties of its lifecycle operations [New], [Save], [load], [upsert],
    [delete] and of the constructor [NewMongoStore].

    Go packages become modules of the same name.  Functions that return an
    [error] return [option error] ([None] is Go's [nil]); functions that
    return [(T, error)] return [error + T].  Code that mutates through
    pointers is written in a state monad over a [World]: the collection, the
    heap of [sessions.Options] records, the clock, the ObjectID generator and
    the trace of calls made to the collaborators. *)

From Stdlib Require Import ZArith NArith String Ascii List Lia.
From stdpp Require Import base gmap strings list fin_maps.

Local Open Scope string_scope.

(** ** Errors *)

(** The error values that can flow through the store.  The first two are the
    store's own ([ErrInvalidId] and the anonymous error of [upsert]); the
    others come from the collaborating libraries. *)
#[warnings="-register-all"] Inductive error : Type :=
| ErrInvalidId                     (* "mongo-store: invalid session id" *)
| ErrInvalidModified               (* "mongo-store: invalid modified value" *)
| ErrInvalidHex                    (* primitive.ErrInvalidHex *)
| ErrInvalidByte (c : ascii)       (* hex.InvalidByteError *)
| ErrNoSuchDocuments               (* qmgo.ErrNoSuchDocuments *)
| ErrNoCodecs                      (* securecookie: no codecs provided *)
| ErrMulti (errs : list error)     (* securecookie.MultiError *)
| ErrOther (msg : string).         (* any other collaborator failure *)

(** ** Package [primitive]: ObjectIDs and their hex form *)

Module primitive.

(** An ObjectID is a [[12]byte]; it is represented by the 96-bit number
    its bytes spell, most significant byte first. *)
Definition ObjectID : Type := N.

Definition ObjectID_modulus : N := 2 ^ 96.

(** [encoding/hex]: value of one hex digit, either case. *)
Definition fromHexChar (c : ascii) : option N :=
  let n := N_of_ascii c in
  if (48 <=? n)%N && (n <=? 57)%N then Some (n - 48)%N
  else if (97 <=? n)%N && (n <=? 102)%N then Some (n - 97 + 10)%N
  else if (65 <=? n)%N && (n <=? 70)%N then Some (n - 65 + 10)%N
  else None.

(** [encoding/hex]: the lower-case digit of a value below 16. *)
Definition hexDigit (d : N) : ascii :=
  if (d <? 10)%N then ascii_of_N (48 + d) else ascii_of_N (97 + (d - 10)).

(** [hex.Decode], accumulating the digits read so far. *)
Fixpoint decodeHex (s : string) (acc : N) : error + N :=
  match s with
  | EmptyString => inr acc
  | String c s' =>
      match fromHexChar c with
      | None => inl (ErrInvalidByte c)
      | Some d => decodeHex s' (acc * 16 + d)%N
      end
  end.

(** [hex.EncodeToString] of the [k] lowest digits, prepended to [acc]. *)
Fixpoint encodeHex (k : nat) (n : N) (acc : string) : string :=
  match k with
  | O => acc
  | S k' => encodeHex k' (n / 16)%N (String (hexDigit (n mod 16)%N) acc)
  end.

(** [primitive.ObjectIDFromHex]. *)
Definition ObjectIDFromHex (s : string) : error + ObjectID :=
  if negb (Nat.eqb (String.length s) 24) then inl ErrInvalidHex
  else decodeHex s 0%N.

(** [primitive.IsValidObjectID]. *)
Definition IsValidObjectID (s : string) : bool :=
  match ObjectIDFromHex s with
  | inl _ => false
  | inr _ => true
  end.

(** [ObjectID.Hex]. *)
Definition Hex (oid : ObjectID) : string := encodeHex 24 oid "".

End primitive.


(** ** Dynamic values *)

Module time.
(** A [time.Time] instant, in nanoseconds. *)
Definition Time : Type := Z.

(** [time.Second], in the nanoseconds of a [time.Duration]. *)
Definition Second : Z := 1000000000.
End time.

(** The values an [interface{}] holds in a session: the dynamic type is the
    constructor. *)
Inductive any : Type :=
| ANil
| ABool (b : bool)
| AInt (z : Z)
| AString (s : string)
| ATime (t : time.Time).

#[global] Instance any_eq_dec : EqDecision any.
Proof. unfold time.Time. solve_decision. Defined.

Definition any_to_sum (a : any) : unit + bool + Z + string + Z :=
  match a with
  | ANil => inl (inl (inl (inl tt)))
  | ABool b => inl (inl (inl (inr b)))
  | AInt z => inl (inl (inr z))
  | AString s => inl (inr s)
  | ATime t => inr t
  end.

Definition any_of_sum (x : unit + bool + Z + string + Z) : any :=
  match x with
  | inl (inl (inl (inl _))) => ANil
  | inl (inl (inl (inr b))) => ABool b
  | inl (inl (inr z)) => AInt z
  | inl (inr s) => AString s
  | inr t => ATime t
  end.

#[global] Instance any_countable : Countable any.
Proof. refine (inj_countable' any_to_sum any_of_sum _). now intros []. Defined.

(** Fixed-width integers: the value of [z] after conversion to a signed
    [w]-bit integer. *)
Definition wrap (w : Z) (z : Z) : Z :=
  ((z + 2 ^ (w - 1)) mod 2 ^ w - 2 ^ (w - 1))%Z.

Definition int32 (z : Z) : Z := wrap 32 z.
Definition int64 (z : Z) : Z := wrap 64 z.

(** ** Package [securecookie]: the token codec *)

Module securecookie.

(** The methods of a [Codec], one per static type the store passes:
    the session id (a string) and the values mapping.  [Decode] writes its
    destination only when it succeeds. *)
Record Methods : Type := {
  EncodeID : string -> string -> error + string;
  DecodeID : string -> string -> error + string;
  EncodeValues : string -> gmap any any -> error + string;
  DecodeValues : string -> string -> error + gmap any any
}.

(** A codec is a [*SecureCookie], whose behaviour depends on its [maxAge]
    field, or some other implementation of the interface. *)
Inductive Codec : Type :=
| SecureCookie (maxAge : Z) (impl : Z -> Methods)
| OtherCodec (impl : Methods).

Definition methods (c : Codec) : Methods :=
  match c with
  | SecureCookie age impl => impl age
  | OtherCodec impl => impl
  end.

(** The [MaxAge] method of a SecureCookie: [s.maxAge = int64(value)]. *)
Definition MaxAge (c : Codec) (value : Z) : Codec :=
  match c with
  | SecureCookie _ impl => SecureCookie (int64 value) impl
  | OtherCodec impl => OtherCodec impl
  end.

(** The loop shared by [EncodeMulti] and [DecodeMulti]: the first codec
    that succeeds wins, the errors of the others are collected. *)
Fixpoint firstOk {A : Type} (f : Codec -> error + A) (codecs : list Codec)
    (errors : list error) : error + A :=
  match codecs with
  | [] => inl (ErrMulti errors)
  | codec :: rest =>
      match f codec with
      | inr a => inr a
      | inl err => firstOk f rest (errors ++ [err])
      end
  end.

Definition multi {A : Type} (f : Codec -> error + A) (codecs : list Codec)
    : error + A :=
  match codecs with
  | [] => inl ErrNoCodecs
  | _ => firstOk f codecs []
  end.

Definition EncodeMultiID (name value : string) (codecs : list Codec) :=
  multi (fun c => EncodeID (methods c) name value) codecs.

Definition DecodeMultiID (name value : string) (codecs : list Codec) :=
  multi (fun c => DecodeID (methods c) name value) codecs.

Definition EncodeMultiValues (name : string) (value : gmap any any)
    (codecs : list Codec) :=
  multi (fun c => EncodeValues (methods c) name value) codecs.

Definition DecodeMultiValues (name value : string) (codecs : list Codec) :=
  multi (fun c => DecodeValues (methods c) name value) codecs.

End securecookie.

(** ** Package [sessions] *)

(** A pointer to a [sessions.Options] record: an index into the heap of the
    [World].  An address outside the heap stands for [nil]. *)
Definition loc : Type := nat.

Module sessions.

Record Options : Type := {
  Path : string;
  Domain : string;
  MaxAge : Z;
  Secure : bool;
  HttpOnly : bool;
  SameSite : Z
}.

(** [new(Options)]: the zero value. *)
Definition zeroOptions : Options :=
  {| Path := ""; Domain := ""; MaxAge := 0; Secure := false;
     HttpOnly := false; SameSite := 0 |}.

Definition withMaxAge (age : Z) (o : Options) : Options :=
  {| Path := Path o; Domain := Domain o; MaxAge := age; Secure := Secure o;
     HttpOnly := HttpOnly o; SameSite := SameSite o |}.

Record Session : Type := {
  ID : string;
  Values : gmap any any;
  OptionsPtr : loc;          (* Options *Options *)
  IsNew : bool;
  Name : string              (* the unexported name, read by Name() *)
}.

Definition withID (id : string) (s : Session) : Session :=
  {| ID := id; Values := Values s; OptionsPtr := OptionsPtr s;
     IsNew := IsNew s; Name := Name s |}.

Definition withValues (v : gmap any any) (s : Session) : Session :=
  {| ID := ID s; Values := v; OptionsPtr := OptionsPtr s;
     IsNew := IsNew s; Name := Name s |}.

Definition withOptions (p : loc) (s : Session) : Session :=
  {| ID := ID s; Values := Values s; OptionsPtr := p;
     IsNew := IsNew s; Name := Name s |}.

Definition withIsNew (b : bool) (s : Session) : Session :=
  {| ID := ID s; Values := Values s; OptionsPtr := OptionsPtr s;
     IsNew := b; Name := Name s |}.

End sessions.

(** ** Package [qmgo]: the collection collaborator *)

Module qmgo.

(** [options.IndexModel] with the [IndexOptions] the store sets. *)
Record IndexModel : Type := {
  Key : list string;
  ExpireAfterSeconds : option Z;     (* *int32 *)
  Sparse : option bool;
  Unique : option bool
}.

(** The four calls the store makes on a [*qmgo.Collection] holding
    documents of type [D], over the state [C] of the database. *)
Class Collection (C D : Type) : Type := {
  CreateIndexes : C -> list IndexModel -> C * option error;
  FindOne : C -> primitive.ObjectID -> error + D;
  UpsertId : C -> primitive.ObjectID -> D -> C * option error;
  RemoveId : C -> primitive.ObjectID -> C * option error
}.

(** A database as qmgo presents it: the documents by [_id], the indexes
    requested so far, and whether the server can be reached ([Some e]: every
    call fails with [e]).  [One] and [RemoveId] report a missing document
    as [ErrNoSuchDocuments]. *)
Record Database (D : Type) : Type := {
  docs : gmap primitive.ObjectID D;
  indexes : list IndexModel;
  outage : option error
}.
Arguments docs {D} _.
Arguments indexes {D} _.
Arguments outage {D} _.

Definition dbCreateIndexes {D} (c : Database D) (ix : list IndexModel)
    : Database D * option error :=
  match outage c with
  | Some e => (c, Some e)
  | None =>
      ({| docs := docs c; indexes := indexes c ++ ix; outage := None |},
       None)
  end.

Definition dbFindOne {D} (c : Database D) (id : primitive.ObjectID)
    : error + D :=
  match outage c with
  | Some e => inl e
  | None =>
      match docs c !! id with
      | Some d => inr d
      | None => inl ErrNoSuchDocuments
      end
  end.

Definition dbUpsertId {D} (c : Database D) (id : primitive.ObjectID) (d : D)
    : Database D * option error :=
  match outage c with
  | Some e => (c, Some e)
  | None =>
      ({| docs := <[id := d]> (docs c); indexes := indexes c;
          outage := None |}, None)
  end.

Definition dbRemoveId {D} (c : Database D) (id : primitive.ObjectID)
    : Database D * option error :=
  match outage c with
  | Some e => (c, Some e)
  | None =>
      match docs c !! id with
      | Some _ =>
          ({| docs := base.delete id (docs c); indexes := indexes c;
              outage := None |}, None)
      | None => (c, Some ErrNoSuchDocuments)
      end
  end.

#[global] Instance Database_Collection {D} : Collection (Database D) D := {
  CreateIndexes := dbCreateIndexes;
  FindOne := dbFindOne;
  UpsertId := dbUpsertId;
  RemoveId := dbRemoveId
}.

End qmgo.

(** ** Package [mongostore] *)

Module mongostore.

(** Session object stored in MongoDB. *)
Record Session : Type := {
  ID : primitive.ObjectID;     (* bson "_id" *)
  Data : string;               (* bson "data" *)
  Modified : time.Time         (* bson "modified" *)
}.

(** The calls the store makes to its collaborators, in the order made. *)
Inductive event : Type :=
| EvGetToken (name : string)
| EvDecodeMulti (name value : string)
| EvEncodeMulti (name : string)
| EvCreateIndexes (models : list qmgo.IndexModel)
| EvFind (id : primitive.ObjectID)
| EvUpsertId (id : primitive.ObjectID) (doc : Session)
| EvRemoveId (id : primitive.ObjectID)
| EvSetToken (name value : string) (options : sessions.Options).

(** The calls that write a token to the response. *)
Definition isTokenWrite (e : event) : bool :=
  match e with
  | EvSetToken _ _ _ => true
  | _ => false
  end.

(** The calls a lookup may make: reading the token, decoding, finding. *)
Definition isLookupCall (e : event) : bool :=
  match e with
  | EvGetToken _ | EvDecodeMulti _ _ | EvFind _ => true
  | _ => false
  end.

(** The calls the upsert path of a save may make. *)
Definition isSaveCall (e : event) : bool :=
  match e with
  | EvEncodeMulti _ | EvUpsertId _ _ | EvSetToken _ _ _ => true
  | _ => false
  end.

Section Store.

(** The inbound request is opaque to the store; the collection is any
    implementation of the four calls over documents of type [Session]. *)
Context {Request C : Type} `{!qmgo.Collection C Session}.

(** The token transport.  [GetToken] reads the request; [SetToken] acts on
    the response writer only and is recorded in the trace as [EvSetToken]. *)
Record TokenGetSeter : Type := {
  GetToken : Request -> string -> error + string
}.

(** MongoStore stores sessions in MongoDB.  The collection handle [coll]
    designates the database of the [World]. *)
Record MongoStore : Type := {
  Codecs : list securecookie.Codec;
  Options : loc;               (* *sessions.Options *)
  Token : TokenGetSeter
}.

(** Everything the store's code reads or changes besides its own locals. *)
Record World : Type := {
  coll : C;
  heap : list sessions.Options;
  clock : time.Time;                        (* what time.Now() returns *)
  objectIDs : nat -> primitive.ObjectID;    (* what NewObjectID() returns *)
  minted : nat;                             (* NewObjectID() calls so far *)
  trace : list event
}.

Definition withColl (c : C) (w : World) : World :=
  {| coll := c; heap := heap w; clock := clock w; objectIDs := objectIDs w;
     minted := minted w; trace := trace w |}.

Definition withHeap (h : list sessions.Options) (w : World) : World :=
  {| coll := coll w; heap := h; clock := clock w; objectIDs := objectIDs w;
     minted := minted w; trace := trace w |}.

Definition withMinted (n : nat) (w : World) : World :=
  {| coll := coll w; heap := heap w; clock := clock w;
     objectIDs := objectIDs w; minted := n; trace := trace w |}.

Definition withTrace (t : list event) (w : World) : World :=
  {| coll := coll w; heap := heap w; clock := clock w;
     objectIDs := objectIDs w; minted := minted w; trace := t |}.

(** *** The monad: state passing, [None] is a nil-pointer panic *)

Definition M (A : Type) : Type := World -> option (A * World).

Definition ret {A : Type} (a : A) : M A := fun w => Some (a, w).

Definition bind {A B : Type} (m : M A) (k : A -> M B) : M B :=
  fun w => match m w with
           | Some (a, w') => k a w'
           | None => None
           end.

Notation "'let*' x := c1 'in' c2" := (bind c1 (fun x => c2))
  (at level 10, x name, c1 at level 100, c2 at level 200).

Definition emit (e : event) : M unit :=
  fun w => Some (tt, withTrace (trace w ++ [e]) w).

(** [*p] *)
Definition deref (p : loc) : M sessions.Options :=
  fun w => match heap w !! p with
           | Some o => Some (o, w)
           | None => None
           end.

(** [*p = o] *)
Definition assign (p : loc) (o : sessions.Options) : M unit :=
  fun w => match heap w !! p with
           | Some _ => Some (tt, withHeap (<[p := o]> (heap w)) w)
           | None => None
           end.

(** [&sessions.Options{...}] and [new(Options)]: a fresh address. *)
Definition alloc (o : sessions.Options) : M loc :=
  fun w => Some (length (heap w), withHeap (heap w ++ [o]) w).

(** [time.Now()] *)
Definition Now : M time.Time := fun w => Some (clock w, w).

(** [primitive.NewObjectID()] *)
Definition NewObjectID : M primitive.ObjectID :=
  fun w => Some ((objectIDs w (minted w) mod primitive.ObjectID_modulus)%N,
                 withMinted (S (minted w)) w).

(** *** Calls to the collaborators, each recorded in the trace *)

Definition callGetToken (t : TokenGetSeter) (r : Request) (name : string)
    : M (error + string) :=
  let* _ := emit (EvGetToken name) in ret (GetToken t r name).

(** [m.Token.SetToken(w, name, value, options)]: the transport receives the
    pointer and reads the options behind it. *)
Definition callSetToken (name value : string) (options : loc) : M unit :=
  let* o := deref options in emit (EvSetToken name value o).

Definition callDecodeMultiID (name value : string)
    (codecs : list securecookie.Codec) : M (error + string) :=
  let* _ := emit (EvDecodeMulti name value) in
  ret (securecookie.DecodeMultiID name value codecs).

Definition callDecodeMultiValues (name value : string)
    (codecs : list securecookie.Codec) : M (error + gmap any any) :=
  let* _ := emit (EvDecodeMulti name value) in
  ret (securecookie.DecodeMultiValues name value codecs).

Definition callEncodeMultiID (name value : string)
    (codecs : list securecookie.Codec) : M (error + string) :=
  let* _ := emit (EvEncodeMulti name) in
  ret (securecookie.EncodeMultiID name value codecs).

Definition callEncodeMultiValues (name : string) (value : gmap any any)
    (codecs : list securecookie.Codec) : M (error + string) :=
  let* _ := emit (EvEncodeMulti name) in
  ret (securecookie.EncodeMultiValues name value codecs).

Definition callCreateIndexes (models : list qmgo.IndexModel)
    : M (option error) :=
  let* _ := emit (EvCreateIndexes models) in
  fun w => let '(c, err) := qmgo.CreateIndexes (coll w) models in
           Some (err, withColl c w).

Definition callFindOne (id : primitive.ObjectID) : M (error + Session) :=
  let* _ := emit (EvFind id) in
  fun w => Some (qmgo.FindOne (coll w) id, w).

Definition callUpsertId (id : primitive.ObjectID) (doc : Session)
    : M (option error) :=
  let* _ := emit (EvUpsertId id doc) in
  fun w => let '(c, err) := qmgo.UpsertId (coll w) id doc in
           Some (err, withColl c w).

Definition callRemoveId (id : primitive.ObjectID) : M (option error) :=
  let* _ := emit (EvRemoveId id) in
  fun w => let '(c, err) := qmgo.RemoveId (coll w) id in
           Some (err, withColl c w).

(** [sessions.NewSession(store, name)]. *)
Definition NewSession (name : string) : M sessions.Session :=
  let* p := alloc sessions.zeroOptions in
  ret {| sessions.ID := ""; sessions.Values := ∅; sessions.OptionsPtr := p;
         sessions.IsNew := false; sessions.Name := name |}.

(** *** The store *)

(** [MaxAge] sets the maximum age for the store and the underlying cookie
    implementation. *)
Definition MaxAge (m : MongoStore) (age : Z) : M MongoStore :=
  let* o := deref (Options m) in
  let* _ := assign (Options m) (sessions.withMaxAge age o) in
  ret {| Codecs := map (fun codec => securecookie.MaxAge codec age) (Codecs m);
         Options := Options m; Token := Token m |}.

(** The collaborators the constructor takes from its package: the cookie
    transport and securecookie's [CodecsFromPairs]. *)
Variable CookieToken : TokenGetSeter.
Variable CodecsFromPairs : list (list Byte.byte) -> list securecookie.Codec.

(** The expire-after value handed to the index:
    [int32(time.Duration(maxAge) * time.Second)]. *)
Definition expireAfter (maxAge : Z) : Z :=
  int32 (int64 (int64 maxAge * time.Second)).

Definition ttlIndex (maxAge : Z) : list qmgo.IndexModel :=
  [ {| qmgo.Key := ["modified"];
       qmgo.ExpireAfterSeconds := Some (expireAfter maxAge);
       qmgo.Sparse := Some true;
       qmgo.Unique := Some true |} ].

(** [NewMongoStore] returns a new MongoStore, or [nil] ([None]) when the
    index could not be created. *)
Definition NewMongoStore (maxAge : Z) (ensureTTL : bool)
    (keyPairs : list (list Byte.byte)) : M (option MongoStore) :=
  let* p := alloc {| sessions.Path := "/"; sessions.Domain := "";
                     sessions.MaxAge := maxAge; sessions.Secure := false;
                     sessions.HttpOnly := false; sessions.SameSite := 0 |} in
  let store := {| Codecs := CodecsFromPairs keyPairs; Options := p;
                  Token := CookieToken |} in
  let* store := MaxAge store maxAge in
  if ensureTTL then
    let* err := callCreateIndexes (ttlIndex maxAge) in
    match err with
    | Some _ => ret None
    | None => ret (Some store)
    end
  else ret (Some store).

Definition load (m : MongoStore) (session : sessions.Session)
    : M (sessions.Session * option error) :=
  if negb (primitive.IsValidObjectID (sessions.ID session)) then
    ret (session, Some ErrInvalidId)
  else
    match primitive.ObjectIDFromHex (sessions.ID session) with
    | inl err => ret (session, Some err)
    | inr oID =>
        let* found := callFindOne oID in
        match found with
        | inl err => ret (session, Some err)
        | inr s =>
            let* decoded :=
              callDecodeMultiValues (sessions.Name session) (Data s)
                                    (Codecs m) in
            match decoded with
            | inl err => ret (session, Some err)
            | inr values => ret (sessions.withValues values session, None)
            end
        end
    end.

(** The part of [upsert] after [modified] has been computed. *)
Definition upsertAt (m : MongoStore) (session : sessions.Session)
    (modified : time.Time) : M (option error) :=
  let* encoded :=
    callEncodeMultiValues (sessions.Name session) (sessions.Values session)
                          (Codecs m) in
  match encoded with
  | inl err => ret (Some err)
  | inr encoded =>
      match primitive.ObjectIDFromHex (sessions.ID session) with
      | inl err => ret (Some err)
      | inr oID =>
          callUpsertId oID {| ID := oID; Data := encoded;
                              Modified := modified |}
      end
  end.

Definition upsert (m : MongoStore) (session : sessions.Session)
    : M (option error) :=
  if negb (primitive.IsValidObjectID (sessions.ID session)) then
    ret (Some ErrInvalidId)
  else
    match sessions.Values session !! AString "modified" with
    | Some val =>
        match val with
        | ATime modified => upsertAt m session modified
        | _ => ret (Some ErrInvalidModified)
        end
    | None =>
        let* modified := Now in
        upsertAt m session modified
    end.

Definition delete (m : MongoStore) (session : sessions.Session)
    : M (option error) :=
  if negb (primitive.IsValidObjectID (sessions.ID session)) then
    ret (Some ErrInvalidId)
  else
    match primitive.ObjectIDFromHex (sessions.ID session) with
    | inl err => ret (Some err)
    | inr oID => callRemoveId oID
    end.

(** The composite literal of [New]: five fields are copied from the store's
    options, the others keep their zero value. *)
Definition copyOptions (defaults : sessions.Options) : sessions.Options :=
  {| sessions.Path := sessions.Path defaults;
     sessions.Domain := sessions.Domain defaults;
     sessions.MaxAge := sessions.MaxAge defaults;
     sessions.Secure := sessions.Secure defaults;
     sessions.HttpOnly := sessions.HttpOnly defaults;
     sessions.SameSite := 0 |}.

(** [New] returns a session for the given name without adding it to the
    registry. *)
Definition New (m : MongoStore) (r : Request) (name : string)
    : M (sessions.Session * option error) :=
  let* session := NewSession name in
  let* defaults := deref (Options m) in
  let* p := alloc (copyOptions defaults) in
  let session := sessions.withOptions p session in
  let session := sessions.withIsNew true session in
  let* token := callGetToken (Token m) r name in
  match token with
  | inl _ => ret (session, None)
  | inr cook =>
      let* decoded := callDecodeMultiID name cook (Codecs m) in
      match decoded with
      | inl err => ret (session, Some err)
      | inr id =>
          let session := sessions.withID id session in
          let* loaded := load m session in
          match snd loaded with
          | None => ret (sessions.withIsNew false (fst loaded), None)
          | Some _ => ret (fst loaded, None)
          end
      end
  end.

(** The second statement of [Save]:
    [if session.ID == "" { session.ID = primitive.NewObjectID().Hex() }]. *)
Definition ensureID (session : sessions.Session) : M sessions.Session :=
  if String.eqb (sessions.ID session) "" then
    let* oid := NewObjectID in
    ret (sessions.withID (primitive.Hex oid) session)
  else ret session.

(** [Save] saves the session: the record is deleted when the session's
    max age is negative, upserted otherwise. *)
Definition Save (m : MongoStore) (r : Request) (session : sessions.Session)
    : M (sessions.Session * option error) :=
  let* options := deref (sessions.OptionsPtr session) in
  if (sessions.MaxAge options <? 0)%Z then
    let* err := delete m session in
    match err with
    | Some err => ret (session, Some err)
    | None =>
        let* _ := callSetToken (sessions.Name session) ""
                               (sessions.OptionsPtr session) in
        ret (session, None)
    end
  else
    let* session := ensureID session in
    let* err := upsert m session in
    match err with
    | Some err => ret (session, Some err)
    | None =>
        let* encoded :=
          callEncodeMultiID (sessions.Name session) (sessions.ID session)
                            (Codecs m) in
        match encoded with
        | inl err => ret (session, Some err)
        | inr encoded =>
            let* _ := callSetToken (sessions.Name session) encoded
                                   (sessions.OptionsPtr session) in
            ret (session, None)
        end
    end.

(** *** Describing runs *)

(** The world after further calls [evs] to the collaborators. *)
Definition after_calls (w : World) (evs : list event) : World :=
  withTrace (trace w ++ evs) w.

(** The world after calls [evs] that left the collection in state [c]. *)
Definition after_query (w : World) (evs : list event) (c : C) : World :=
  withColl c (after_calls w evs).

(** The ways [upsert] ends: it stops before any call, or after the encoding
    of the values failed, or it hands one record to the collection and
    returns what [UpsertId] returns. *)
Inductive upsert_outcome (m : MongoStore) (s : sessions.Session) (w : World)
  : option error -> World -> Prop :=
| upsert_rejected (e : error) :
    upsert_outcome m s w (Some e) w
| upsert_not_encoded (e : error) :
    securecookie.EncodeMultiValues (sessions.Name s) (sessions.Values s)
      (Codecs m) = inl e ->
    upsert_outcome m s w (Some e)
      (after_calls w [EvEncodeMulti (sessions.Name s)])
| upsert_sent (oid : primitive.ObjectID) (doc : Session) :
    primitive.ObjectIDFromHex (sessions.ID s) = inr oid ->
    ID doc = oid ->
    securecookie.EncodeMultiValues (sessions.Name s) (sessions.Values s)
      (Codecs m) = inr (Data doc) ->
    upsert_outcome m s w
      (snd (qmgo.UpsertId (coll w) oid doc))
      (after_query w [EvEncodeMulti (sessions.Name s); EvUpsertId oid doc]
         (fst (qmgo.UpsertId (coll w) oid doc))).

End Store.

End mongostore.

(** ** Concrete collaborators, for running the store on examples *)

Module example.

(** A request is the list of its cookies; the transport looks the token up
    by session name. *)
Definition Request : Type := list (string * string).

Fixpoint cookie (r : Request) (name : string) : error + string :=
  match r with
  | [] => inl (ErrOther "http: named cookie not present")
  | (n, v) :: rest => if String.eqb n name then inr v else cookie rest name
  end.

Definition cookies : @mongostore.TokenGetSeter Request :=
  {| mongostore.GetToken := cookie |}.

(** A codec that accepts everything: ids are their own tokens, every
    payload decodes to the empty mapping. *)
Definition plain : securecookie.Codec :=
  securecookie.OtherCodec
    {| securecookie.EncodeID := fun _ v => inr v;
       securecookie.DecodeID := fun _ v => inr v;
       securecookie.EncodeValues := fun _ _ => inr "gob";
       securecookie.DecodeValues := fun _ _ => inr ∅ |}.

(** A codec that rejects everything. *)
Definition invalid : error := ErrOther "securecookie: the value is not valid".

Definition rejecting : securecookie.Codec :=
  securecookie.OtherCodec
    {| securecookie.EncodeID := fun _ _ => inl invalid;
       securecookie.DecodeID := fun _ _ => inl invalid;
       securecookie.EncodeValues := fun _ _ => inl invalid;
       securecookie.DecodeValues := fun _ _ => inl invalid |}.

Definition defaults : sessions.Options :=
  {| sessions.Path := "/"; sessions.Domain := ""; sessions.MaxAge := 3600;
     sessions.Secure := false; sessions.HttpOnly := true;
     sessions.SameSite := 0 |}.

Definition expired : sessions.Options := sessions.withMaxAge (-1) defaults.

(** A store whose default options are at address 0. *)
Definition store (codecs : list securecookie.Codec)
    : @mongostore.MongoStore Request :=
  {| mongostore.Codecs := codecs; mongostore.Options := 0%nat;
     mongostore.Token := cookies |}.

Definition emptyDB : qmgo.Database mongostore.Session :=
  {| qmgo.docs := ∅; qmgo.indexes := []; qmgo.outage := None |}.

(** A world with an empty, reachable database, the store's defaults at
    address 0 and the options of a session to terminate at address 1. *)
Definition world : @mongostore.World (qmgo.Database mongostore.Session) :=
  {| mongostore.coll := emptyDB;
     mongostore.heap := [defaults; expired];
     mongostore.clock := 1700000000000000000%Z;
     mongostore.objectIDs := fun n => N.of_nat (S n);
     mongostore.minted := 0%nat;
     mongostore.trace := [] |}.

Definition session (id : string) (values : gmap any any) (options : loc)
    : sessions.Session :=
  {| sessions.ID := id; sessions.Values := values;
     sessions.OptionsPtr := options; sessions.IsNew := false;
     sessions.Name := "sid" |}.

Definition someID : string := "65f0c1a2b3d4e5f601234567".

(** A session whose ["modified"] value is not a [time.Time]. *)
Definition corrupt : sessions.Session :=
  session someID {[ AString "modified" := AString "yesterday" ]} 0%nat.

(** The ObjectID that [someID] spells. *)
Definition someOID : primitive.ObjectID := 0x65f0c1a2b3d4e5f601234567%N.

(** The record a save of [session someID ∅ _] leaves with the [plain]
    codec, and a database and a world that hold it. *)
Definition savedDoc : mongostore.Session :=
  {| mongostore.ID := someOID; mongostore.Data := "gob";
     mongostore.Modified := 1700000000000000000%Z |}.

Definition savedDB : qmgo.Database mongostore.Session :=
  {| qmgo.docs := {[ someOID := savedDoc ]}; qmgo.indexes := [];
     qmgo.outage := None |}.

Definition savedWorld
    : @mongostore.World (qmgo.Database mongostore.Session) :=
  mongostore.withColl savedDB world.

(** A codec that encodes values but cannot encode an id. *)
Definition idless : securecookie.Codec :=
  securecookie.OtherCodec
    {| securecookie.EncodeID := fun _ _ => inl invalid;
       securecookie.DecodeID := fun _ v => inr v;
       securecookie.EncodeValues := fun _ _ => inr "gob";
       securecookie.DecodeValues := fun _ _ => inr ∅ |}.

(** A SecureCookie whose methods ignore its max age. *)
Definition timed (maxAge : Z) : securecookie.Codec :=
  securecookie.SecureCookie maxAge (fun _ => securecookie.methods plain).

End example.

(** *** Facts about the hex form *)

Lemma fromHexChar_hexDigit (d : N) :
  (d < 16)%N -> primitive.fromHexChar (primitive.hexDigit d) = Some d.
Proof.
  intros Hd.
  assert (Hcases : In d (map N.of_nat (seq 0 16))).
  { apply in_map_iff. exists (N.to_nat d). split; [lia|].
    apply in_seq. lia. }
  simpl in Hcases.
  repeat (destruct Hcases as [<- | Hcases]; [reflexivity|]).
  contradiction.
Qed.

Lemma length_encodeHex (k : nat) (n : N) (acc : string) :
  String.length (primitive.encodeHex k n acc) = (k + String.length acc)%nat.
Proof.
  revert n acc. induction k as [|k IH]; intros n acc; simpl; [reflexivity|].
  rewrite IH. simpl. lia.
Qed.

Lemma decodeHex_encodeHex (k : nat) (n : N) (acc : string) (a : N) :
  primitive.decodeHex (primitive.encodeHex k n acc) a
  = primitive.decodeHex acc (a * 16 ^ N.of_nat k + n mod 16 ^ N.of_nat k)%N.
Proof.
  revert n acc a. induction k as [|k IH]; intros n acc a.
  - simpl. rewrite N.mod_1_r. f_equal. lia.
  - cbn [primitive.encodeHex]. rewrite IH. cbn [primitive.decodeHex].
    rewrite fromHexChar_hexDigit by (apply N.mod_lt; lia).
    f_equal.
    replace (N.of_nat (S k)) with (N.succ (N.of_nat k)) by lia.
    rewrite N.pow_succ_r'.
    rewrite (N.Div0.mod_mul_r n 16 (16 ^ N.of_nat k)). lia.
Qed.

Lemma ObjectIDFromHex_Hex (oid : primitive.ObjectID) :
  primitive.ObjectIDFromHex (primitive.Hex oid)
  = inr (oid mod primitive.ObjectID_modulus)%N.
Proof.
  unfold primitive.ObjectIDFromHex, primitive.Hex.
  rewrite length_encodeHex. cbn [Nat.eqb Nat.add String.length negb].
  rewrite decodeHex_encodeHex. cbn [primitive.decodeHex].
  f_equal.
Qed.

Lemma IsValidObjectID_Hex (oid : primitive.ObjectID) :
  primitive.IsValidObjectID (primitive.Hex oid) = true.
Proof.
  unfold primitive.IsValidObjectID. now rewrite ObjectIDFromHex_Hex.
Qed.

Lemma IsValidObjectID_empty : primitive.IsValidObjectID "" = false.
Proof. reflexivity. Qed.

(** ** The store's operations *)

Local Open Scope list_scope.


Ltac unfold_monad :=
  unfold mongostore.callRemoveId, mongostore.callUpsertId,
    mongostore.callFindOne, mongostore.callCreateIndexes,
    mongostore.callEncodeMultiValues, mongostore.callEncodeMultiID,
    mongostore.callDecodeMultiValues, mongostore.callDecodeMultiID,
    mongostore.callSetToken, mongostore.callGetToken, mongostore.NewSession,
    mongostore.NewObjectID, mongostore.Now, mongostore.alloc,
    mongostore.assign, mongostore.deref, mongostore.emit, mongostore.bind,
    mongostore.ret in *.

(** *** How [delete] and [upsert] run *)

Lemma valid_ObjectIDFromHex (id : string) :
  primitive.IsValidObjectID id = true ->
  exists oid, primitive.ObjectIDFromHex id = inr oid.
Proof.
  unfold primitive.IsValidObjectID.
  destruct (primitive.ObjectIDFromHex id) as [e|oid]; [discriminate|].
  intros _. now exists oid.
Qed.

Section Runs.

Context {Request C : Type} `{!qmgo.Collection C mongostore.Session}.
Implicit Types (m : @mongostore.MongoStore Request) (s : sessions.Session).
Implicit Types (w : @mongostore.World C).

Lemma delete_run m s w :
  mongostore.delete m s w =
  match primitive.ObjectIDFromHex (sessions.ID s) with
  | inl _ => Some (Some ErrInvalidId, w)
  | inr oid =>
      Some (snd (qmgo.RemoveId (mongostore.coll w) oid),
            mongostore.after_query w [mongostore.EvRemoveId oid]
              (fst (qmgo.RemoveId (mongostore.coll w) oid)))
  end.
Proof.
  unfold mongostore.delete, primitive.IsValidObjectID.
  destruct (primitive.ObjectIDFromHex (sessions.ID s)) as [e|oid];
    [reflexivity|].
  unfold_monad. cbn.
  destruct (qmgo.RemoveId (mongostore.coll w) oid) as [c err]. reflexivity.
Qed.

Lemma upsertAt_outcome m s w (t : time.Time) (oid : primitive.ObjectID) :
  primitive.ObjectIDFromHex (sessions.ID s) = inr oid ->
  exists err w',
    mongostore.upsertAt m s t w = Some (err, w') /\
    mongostore.upsert_outcome m s w err w'.
Proof.
  intros Hoid. unfold mongostore.upsertAt. unfold_monad. cbn.
  destruct (securecookie.EncodeMultiValues _ _ _) as [e|enc] eqn:Henc.
  - eexists _, _. split; [reflexivity|].
    now apply mongostore.upsert_not_encoded.
  - rewrite Hoid. cbn.
    set (doc := {| mongostore.ID := oid; mongostore.Data := enc;
                   mongostore.Modified := t |}).
    pose proof (mongostore.upsert_sent m s w oid doc Hoid eq_refl Henc) as Hs.
    destruct (qmgo.UpsertId (mongostore.coll w) oid doc) as [c err].
    eexists _, _. split; [reflexivity|].
    rewrite <- app_assoc. exact Hs.
Qed.

Lemma upsertAt_run m s w (t : time.Time) (oid : primitive.ObjectID) :
  primitive.ObjectIDFromHex (sessions.ID s) = inr oid ->
  mongostore.upsertAt m s t w =
  match securecookie.EncodeMultiValues (sessions.Name s) (sessions.Values s)
          (mongostore.Codecs m) with
  | inl e =>
      Some (Some e,
            mongostore.after_calls w
              [mongostore.EvEncodeMulti (sessions.Name s)])
  | inr enc =>
      let doc := {| mongostore.ID := oid; mongostore.Data := enc;
                    mongostore.Modified := t |} in
      Some (snd (qmgo.UpsertId (mongostore.coll w) oid doc),
            mongostore.after_query w
              [mongostore.EvEncodeMulti (sessions.Name s);
               mongostore.EvUpsertId oid doc]
              (fst (qmgo.UpsertId (mongostore.coll w) oid doc)))
  end.
Proof.
  intros Hoid. unfold mongostore.upsertAt. unfold_monad. cbn.
  destruct (securecookie.EncodeMultiValues _ _ _) as [e|enc]; [reflexivity|].
  rewrite Hoid. cbn.
  destruct (qmgo.UpsertId _ _ _) as [c err]. cbn.
  unfold mongostore.after_query, mongostore.after_calls. cbn.
  now rewrite <- app_assoc.
Qed.

(** The [modified] instant [upsert] computes, when it computes one. *)
Lemma upsert_valid_run m s w :
  primitive.IsValidObjectID (sessions.ID s) = true ->
  mongostore.upsert m s w =
  match sessions.Values s !! AString "modified" with
  | None => mongostore.upsertAt m s (mongostore.clock w) w
  | Some (ATime t) => mongostore.upsertAt m s t w
  | Some _ => Some (Some ErrInvalidModified, w)
  end.
Proof.
  intros Hvalid. unfold mongostore.upsert. rewrite Hvalid. cbn.
  destruct (sessions.Values s !! AString "modified") as [[]|]; reflexivity.
Qed.

Lemma upsert_outcome_total m s w :
  exists err w',
    mongostore.upsert m s w = Some (err, w') /\
    mongostore.upsert_outcome m s w err w'.
Proof.
  unfold mongostore.upsert.
  destruct (primitive.IsValidObjectID (sessions.ID s)) eqn:Hvalid; cbn.
  2:{ eexists _, _. split; [reflexivity|]. constructor. }
  destruct (valid_ObjectIDFromHex _ Hvalid) as [oid Hoid].
  destruct (sessions.Values s !! AString "modified") as [val|].
  - destruct val;
      try (eexists _, _; split; [reflexivity|]; constructor).
    now apply upsertAt_outcome with (oid := oid).
  - unfold mongostore.Now, mongostore.bind.
    now apply upsertAt_outcome with (oid := oid).
Qed.

Lemma upsert_outcome_frame m s w err w' :
  mongostore.upsert_outcome m s w err w' ->
  mongostore.heap w' = mongostore.heap w /\
  mongostore.minted w' = mongostore.minted w /\
  exists evs, mongostore.trace w' = mongostore.trace w ++ evs /\
              Forall (fun e => mongostore.isTokenWrite e = false) evs.
Proof.
  intros [e|e He|oid doc Hoid Hid Henc]; cbn; repeat split.
  - exists []. split; [now rewrite app_nil_r | constructor].
  - eexists. split; [reflexivity|]. repeat constructor.
  - eexists. split; [reflexivity|]. repeat constructor.
Qed.

Lemma ensureID_run s w :
  mongostore.ensureID s w =
  Some (if String.eqb (sessions.ID s) "" then
          (sessions.withID
             (primitive.Hex (mongostore.objectIDs w (mongostore.minted w)
                             mod primitive.ObjectID_modulus)%N) s,
           mongostore.withMinted (S (mongostore.minted w)) w)
        else (s, w)).
Proof.
  unfold mongostore.ensureID.
  destruct (String.eqb (sessions.ID s) ""); reflexivity.
Qed.

Lemma Save_negative_run m (r : Request) s w (o : sessions.Options) :
  mongostore.heap w !! sessions.OptionsPtr s = Some o ->
  (sessions.MaxAge o < 0)%Z ->
  mongostore.Save m r s w =
  match mongostore.delete m s w with
  | None => None
  | Some (Some e, w1) => Some ((s, Some e), w1)
  | Some (None, w1) =>
      match mongostore.heap w1 !! sessions.OptionsPtr s with
      | Some o' =>
          Some ((s, None),
                mongostore.after_calls w1
                  [mongostore.EvSetToken (sessions.Name s) "" o'])
      | None => None
      end
  end.
Proof.
  intros Ho Hneg. apply Z.ltb_lt in Hneg.
  unfold mongostore.Save. unfold_monad. rewrite Ho, Hneg.
  destruct (mongostore.delete m s w) as [[[e|] w1]|]; try reflexivity.
  destruct (mongostore.heap w1 !! sessions.OptionsPtr s); reflexivity.
Qed.

Lemma Save_nonnegative_run m (r : Request) s w (o : sessions.Options) :
  mongostore.heap w !! sessions.OptionsPtr s = Some o ->
  (0 <= sessions.MaxAge o)%Z ->
  mongostore.Save m r s w =
  match mongostore.ensureID s w with
  | None => None
  | Some (s1, w1) =>
      match mongostore.upsert m s1 w1 with
      | None => None
      | Some (Some e, w2) => Some ((s1, Some e), w2)
      | Some (None, w2) =>
          match securecookie.EncodeMultiID (sessions.Name s1) (sessions.ID s1)
                  (mongostore.Codecs m) with
          | inl e =>
              Some ((s1, Some e),
                    mongostore.after_calls w2
                      [mongostore.EvEncodeMulti (sessions.Name s1)])
          | inr tok =>
              match mongostore.heap w2 !! sessions.OptionsPtr s1 with
              | Some o' =>
                  Some ((s1, None),
                        mongostore.after_calls w2
                          [mongostore.EvEncodeMulti (sessions.Name s1);
                           mongostore.EvSetToken (sessions.Name s1) tok o'])
              | None => None
              end
          end
      end
  end.
Proof.
  intros Ho Hpos. apply Z.ltb_ge in Hpos.
  unfold mongostore.Save. unfold_monad. rewrite Ho, Hpos.
  destruct (mongostore.ensureID s w) as [[s1 w1]|]; [|reflexivity].
  destruct (mongostore.upsert m s1 w1) as [[[e|] w2]|]; try reflexivity.
  cbn.
  destruct (securecookie.EncodeMultiID _ _ _) as [e|tok]; [reflexivity|].
  cbn. destruct (mongostore.heap w2 !! sessions.OptionsPtr s1);
    [|reflexivity].
  unfold mongostore.after_calls. cbn. now rewrite <- app_assoc.
Qed.

Lemma load_run m s w :
  mongostore.load m s w =
  match primitive.ObjectIDFromHex (sessions.ID s) with
  | inl _ => Some ((s, Some ErrInvalidId), w)
  | inr oid =>
      match qmgo.FindOne (mongostore.coll w) oid with
      | inl e =>
          Some ((s, Some e),
                mongostore.after_calls w [mongostore.EvFind oid])
      | inr doc =>
          let w' :=
            mongostore.after_calls w
              [mongostore.EvFind oid;
               mongostore.EvDecodeMulti (sessions.Name s)
                 (mongostore.Data doc)] in
          match securecookie.DecodeMultiValues (sessions.Name s)
                  (mongostore.Data doc) (mongostore.Codecs m) with
          | inl e => Some ((s, Some e), w')
          | inr values => Some ((sessions.withValues values s, None), w')
          end
      end
  end.
Proof.
  unfold mongostore.load, primitive.IsValidObjectID.
  destruct (primitive.ObjectIDFromHex (sessions.ID s)) as [e|oid];
    [reflexivity|].
  unfold_monad. cbn.
  destruct (qmgo.FindOne (mongostore.coll w) oid) as [e|doc]; [reflexivity|].
  cbn. unfold mongostore.after_calls. cbn. rewrite <- app_assoc. cbn.
  destruct (securecookie.DecodeMultiValues _ _ _); reflexivity.
Qed.

(** The session [New] starts from, and the world once its options are
    allocated and the transport has been asked for the token. *)
Lemma New_run m (r : Request) (name : string) w
    (defaults : sessions.Options) :
  mongostore.heap w !! mongostore.Options m = Some defaults ->
  let fresh :=
    {| sessions.ID := ""; sessions.Values := ∅;
       sessions.OptionsPtr := S (length (mongostore.heap w));
       sessions.IsNew := true; sessions.Name := name |} in
  let w0 :=
    mongostore.after_calls
      (mongostore.withHeap
         (mongostore.heap w
          ++ [sessions.zeroOptions; mongostore.copyOptions defaults]) w)
      [mongostore.EvGetToken name] in
  mongostore.New m r name w =
  match mongostore.GetToken (mongostore.Token m) r name with
  | inl _ => Some ((fresh, None), w0)
  | inr cook =>
      let w1 :=
        mongostore.after_calls w0 [mongostore.EvDecodeMulti name cook] in
      match securecookie.DecodeMultiID name cook (mongostore.Codecs m) with
      | inl e => Some ((fresh, Some e), w1)
      | inr id =>
          match mongostore.load m (sessions.withID id fresh) w1 with
          | None => None
          | Some ((s', None), w') =>
              Some ((sessions.withIsNew false s', None), w')
          | Some ((s', Some _), w') => Some ((s', None), w')
          end
      end
  end.
Proof.
  intros Hdef fresh w0.
  unfold mongostore.New. unfold_monad. cbn.
  rewrite (lookup_app_l_Some _ _ _ _ Hdef).
  unfold mongostore.withHeap, mongostore.withTrace. cbn.
  rewrite length_app. cbn. rewrite Nat.add_1_r.
  rewrite <- app_assoc. cbn.
  destruct (mongostore.GetToken (mongostore.Token m) r name) as [e|cook];
    [reflexivity|].
  cbn.
  destruct (securecookie.DecodeMultiID name cook (mongostore.Codecs m))
    as [e|id]; [reflexivity|].
  cbn.
  set (L := mongostore.load m (sessions.withID id fresh)
              (mongostore.after_calls w0 [mongostore.EvDecodeMulti name cook])).
  match goal with
  | |- match mongostore.load m ?s ?w with _ => _ end = _ =>
      change (mongostore.load m s w) with L
  end.
  destruct L as [[[s' [e|]] w']|]; reflexivity.
Qed.

End Runs.

(** *** Identifier validation comes first *)

(** C7: when the session id fails identifier-format validation, as the
    empty id does, each of [load], [upsert] and [delete] returns [ErrInvalidId]
    and leaves the world as it found it: no call is made to the collection
    (nor to any other collaborator), so the trace and the database are
    unchanged. *)
Theorem invalid_id_never_reaches_collection
    {Request C : Type} `{!qmgo.Collection C mongostore.Session}
    (m : @mongostore.MongoStore Request) (s : sessions.Session)
    (w : @mongostore.World C) :
  primitive.IsValidObjectID (sessions.ID s) = false ->
  mongostore.load m s w = Some ((s, Some ErrInvalidId), w) /\
  mongostore.upsert m s w = Some (Some ErrInvalidId, w) /\
  mongostore.delete m s w = Some (Some ErrInvalidId, w) /\
  primitive.IsValidObjectID "" = false.
Proof.
  intros Hbad.
  unfold mongostore.load, mongostore.upsert, mongostore.delete.
  rewrite Hbad. repeat split.
Qed.

Lemma invalid_id_never_reaches_collection_witness :
  primitive.IsValidObjectID "" = false /\
  mongostore.load (example.store [example.plain]) (example.session "" ∅ 0%nat)
    example.world
  = Some ((example.session "" ∅ 0%nat, Some ErrInvalidId), example.world).
Proof.
  split; [reflexivity|].
  apply (invalid_id_never_reaches_collection
           (example.store [example.plain]) (example.session "" ∅ 0%nat)
           example.world).
  reflexivity.
Defined.

(** C9: terminating a session that was never saved.  With a negative max
    age and the empty id, [Save] returns [ErrInvalidId] and the world is
    unchanged: in particular no token-clearing write is made. *)
Theorem Save_unsaved_session_negative_maxAge
    {Request C : Type} `{!qmgo.Collection C mongostore.Session}
    (m : @mongostore.MongoStore Request) (r : Request)
    (s : sessions.Session) (w : @mongostore.World C)
    (o : sessions.Options) :
  mongostore.heap w !! sessions.OptionsPtr s = Some o ->
  (sessions.MaxAge o < 0)%Z ->
  sessions.ID s = "" ->
  mongostore.Save m r s w = Some ((s, Some ErrInvalidId), w).
Proof.
  intros Ho Hneg Hid.
  unfold mongostore.Save, mongostore.delete. unfold_monad.
  rewrite Ho. apply Z.ltb_lt in Hneg. rewrite Hneg, Hid. reflexivity.
Qed.

Lemma Save_unsaved_session_negative_maxAge_witness :
  mongostore.Save (example.store [example.plain]) []
    (example.session "" ∅ 1%nat) example.world
  = Some ((example.session "" ∅ 1%nat, Some ErrInvalidId), example.world).
Proof.
  apply (Save_unsaved_session_negative_maxAge
           (example.store [example.plain]) [] (example.session "" ∅ 1%nat)
           example.world example.expired).
  - reflexivity.
  - reflexivity.
  - reflexivity.
Defined.

(** *** Deleting *)

(** C2, as the code has it: for an id of valid format [delete] makes one
    remove-by-id call for the decoded id and returns the collection's answer
    unchanged, error included; it adds no tolerance of its own for a record
    that is already absent. *)
Theorem delete_returns_what_RemoveId_returns
    {Request C : Type} `{!qmgo.Collection C mongostore.Session}
    (m : @mongostore.MongoStore Request) (s : sessions.Session)
    (w : @mongostore.World C) :
  primitive.IsValidObjectID (sessions.ID s) = true ->
  exists oid,
    primitive.ObjectIDFromHex (sessions.ID s) = inr oid /\
    mongostore.delete m s w =
    Some (snd (qmgo.RemoveId (mongostore.coll w) oid),
          mongostore.after_query w [mongostore.EvRemoveId oid]
            (fst (qmgo.RemoveId (mongostore.coll w) oid))).
Proof.
  intros Hvalid. destruct (valid_ObjectIDFromHex _ Hvalid) as [oid Hoid].
  exists oid. split; [exact Hoid|].
  rewrite delete_run, Hoid. reflexivity.
Qed.

Lemma delete_returns_what_RemoveId_returns_witness :
  primitive.IsValidObjectID example.someID = true /\
  exists oid,
    primitive.ObjectIDFromHex example.someID = inr oid /\
    mongostore.delete (example.store [example.plain])
      (example.session example.someID ∅ 1%nat) example.world =
    Some (snd (qmgo.RemoveId example.emptyDB oid),
          mongostore.after_query example.world [mongostore.EvRemoveId oid]
            (fst (qmgo.RemoveId example.emptyDB oid))).
Proof.
  split; [reflexivity|].
  apply (delete_returns_what_RemoveId_returns
           (example.store [example.plain])
           (example.session example.someID ∅ 1%nat) example.world).
  reflexivity.
Defined.

(** C2 fails as stated: on a reachable qmgo database that holds no record,
    deleting an id of valid format returns [ErrNoSuchDocuments]. *)
Lemma delete_absent_id_is_an_error :
  primitive.IsValidObjectID example.someID = true /\
  qmgo.docs example.emptyDB = ∅ /\
  exists w',
    mongostore.delete (example.store [example.plain])
      (example.session example.someID ∅ 1%nat) example.world
    = Some (Some ErrNoSuchDocuments, w').
Proof.
  split; [reflexivity|]. split; [reflexivity|].
  eexists. vm_compute. reflexivity.
Qed.

(** *** Saving *)

(** C5: the termination path.  With a negative max age, [Save] runs
    [delete] and nothing else before the token write.  For an id of valid
    format [delete] makes one remove-by-id call for the session's id and
    returns its answer; for any other id it returns [ErrInvalidId] without
    a call.  If [delete] returns an error, [Save] returns that error and
    the world [delete] left: no token is written.  Otherwise [Save] records
    one [SetToken] with the empty token and the session's options and
    returns no error; the collection is the one the removal left.  In
    every case the calls made are spelled out: nothing is encoded and
    nothing upserted. *)
Theorem Save_negative_maxAge_terminates
    {Request C : Type} `{!qmgo.Collection C mongostore.Session}
    (m : @mongostore.MongoStore Request) (r : Request)
    (s : sessions.Session) (w : @mongostore.World C)
    (o : sessions.Options) :
  mongostore.heap w !! sessions.OptionsPtr s = Some o ->
  (sessions.MaxAge o < 0)%Z ->
  mongostore.delete m s w =
    match primitive.ObjectIDFromHex (sessions.ID s) with
    | inl _ => Some (Some ErrInvalidId, w)
    | inr oid =>
        Some (snd (qmgo.RemoveId (mongostore.coll w) oid),
              mongostore.after_query w [mongostore.EvRemoveId oid]
                (fst (qmgo.RemoveId (mongostore.coll w) oid)))
    end /\
  mongostore.Save m r s w =
    match mongostore.delete m s w with
    | None => None
    | Some (Some e, w1) => Some ((s, Some e), w1)
    | Some (None, w1) =>
        Some ((s, None),
              mongostore.after_calls w1
                [mongostore.EvSetToken (sessions.Name s) "" o])
    end /\
  mongostore.Save m r s w =
    match primitive.ObjectIDFromHex (sessions.ID s) with
    | inl _ => Some ((s, Some ErrInvalidId), w)
    | inr oid =>
        match snd (qmgo.RemoveId (mongostore.coll w) oid) with
        | Some e =>
            Some ((s, Some e),
                  mongostore.after_query w [mongostore.EvRemoveId oid]
                    (fst (qmgo.RemoveId (mongostore.coll w) oid)))
        | None =>
            Some ((s, None),
                  mongostore.after_query w
                    [mongostore.EvRemoveId oid;
                     mongostore.EvSetToken (sessions.Name s) "" o]
                    (fst (qmgo.RemoveId (mongostore.coll w) oid)))
        end
    end.
Proof.
  intros Ho Hneg. split; [apply delete_run|].
  rewrite (Save_negative_run m r s w o Ho Hneg).
  rewrite delete_run.
  destruct (primitive.ObjectIDFromHex (sessions.ID s)) as [e|oid].
  { split; reflexivity. }
  destruct (snd (qmgo.RemoveId (mongostore.coll w) oid)) as [e|].
  { split; reflexivity. }
  cbn [mongostore.heap mongostore.after_query mongostore.after_calls
       mongostore.withColl mongostore.withTrace].
  rewrite Ho. split; [reflexivity|].
  unfold mongostore.after_query, mongostore.after_calls. cbn.
  now rewrite <- app_assoc.
Qed.

Lemma Save_negative_maxAge_terminates_witness :
  mongostore.heap example.savedWorld !! 1%nat = Some example.expired /\
  (sessions.MaxAge example.expired < 0)%Z /\
  primitive.ObjectIDFromHex example.someID = inr example.someOID /\
  qmgo.RemoveId example.savedDB example.someOID = (example.emptyDB, None) /\
  mongostore.Save (example.store [example.plain]) []
    (example.session example.someID ∅ 1%nat) example.savedWorld =
  Some ((example.session example.someID ∅ 1%nat, None),
        mongostore.after_query example.savedWorld
          [mongostore.EvRemoveId example.someOID;
           mongostore.EvSetToken "sid" "" example.expired]
          example.emptyDB).
Proof.
  split; [reflexivity|]. split; [reflexivity|].
  split; [reflexivity|]. split; [reflexivity|].
  exact (proj2 (proj2 (Save_negative_maxAge_terminates
                         (example.store [example.plain]) []
                         (example.session example.someID ∅ 1%nat)
                         example.savedWorld example.expired
                         eq_refl eq_refl))).
Defined.

(** C8: with a non-negative max age, [Save] mints an identifier exactly
    when the session id is empty: then the id becomes the hex form of the
    next generated ObjectID, which is of valid format; a non-empty id is
    returned as it came and no ObjectID is generated. *)
Theorem Save_mints_id_iff_empty
    {Request C : Type} `{!qmgo.Collection C mongostore.Session}
    (m : @mongostore.MongoStore Request) (r : Request)
    (s : sessions.Session) (w : @mongostore.World C)
    (o : sessions.Options) :
  mongostore.heap w !! sessions.OptionsPtr s = Some o ->
  (0 <= sessions.MaxAge o)%Z ->
  exists s' err w',
    mongostore.Save m r s w = Some ((s', err), w') /\
    (sessions.ID s = "" ->
       sessions.ID s' =
         primitive.Hex (mongostore.objectIDs w (mongostore.minted w)
                        mod primitive.ObjectID_modulus)%N /\
       primitive.IsValidObjectID (sessions.ID s') = true /\
       mongostore.minted w' = S (mongostore.minted w)) /\
    (sessions.ID s <> "" ->
       sessions.ID s' = sessions.ID s /\
       mongostore.minted w' = mongostore.minted w).
Proof.
  intros Ho Hpos. rewrite (Save_nonnegative_run m r s w o Ho Hpos).
  rewrite ensureID_run.
  set (s1w1 := if String.eqb (sessions.ID s) "" then _ else _).
  assert (Hs1 : (sessions.ID s = "" ->
                 sessions.ID (fst s1w1) =
                   primitive.Hex (mongostore.objectIDs w (mongostore.minted w)
                                  mod primitive.ObjectID_modulus)%N /\
                 primitive.IsValidObjectID (sessions.ID (fst s1w1)) = true /\
                 mongostore.minted (snd s1w1) = S (mongostore.minted w)) /\
                (sessions.ID s <> "" ->
                 sessions.ID (fst s1w1) = sessions.ID s /\
                 mongostore.minted (snd s1w1) = mongostore.minted w) /\
                mongostore.heap (snd s1w1) = mongostore.heap w /\
                sessions.OptionsPtr (fst s1w1) = sessions.OptionsPtr s).
  { subst s1w1. destruct (String.eqb_spec (sessions.ID s) "") as [E|E]; cbn.
    - repeat split; try congruence. apply IsValidObjectID_Hex.
    - repeat split; congruence. }
  destruct s1w1 as [s1 w1]. cbn in Hs1.
  destruct Hs1 as (Hempty & Hkept & Hheap & Hptr).
  destruct (upsert_outcome_total m s1 w1) as (uerr & w2 & Hup & Hout).
  destruct (upsert_outcome_frame _ _ _ _ _ Hout) as (Hh2 & Hm2 & _).
  rewrite Hup.
  destruct uerr as [e|].
  - exists s1, (Some e), w2. split; [reflexivity|]. rewrite Hm2.
    split; assumption.
  - destruct (securecookie.EncodeMultiID _ _ _) as [e|tok].
    + eexists _, _, _. split; [reflexivity|]. cbn. rewrite Hm2.
      split; assumption.
    + rewrite Hh2, Hheap, Hptr, Ho.
      eexists _, _, _. split; [reflexivity|]. cbn. rewrite Hm2.
      split; assumption.
Qed.

Lemma Save_mints_id_iff_empty_witness :
  mongostore.heap example.world !! 0%nat = Some example.defaults /\
  (0 <= sessions.MaxAge example.defaults)%Z /\
  exists s' err w',
    mongostore.Save (example.store [example.plain]) []
      (example.session "" ∅ 0%nat) example.world = Some ((s', err), w') /\
    sessions.ID s' = "000000000000000000000001" /\
    mongostore.minted w' = 1%nat.
Proof.
  split; [reflexivity|]. split; [discriminate|].
  destruct (Save_mints_id_iff_empty
              (example.store [example.plain]) []
              (example.session "" ∅ 0%nat) example.world example.defaults)
    as (s' & err & w' & Hrun & Hempty & _).
  - reflexivity.
  - discriminate.
  - exists s', err, w'. split; [exact Hrun|].
    destruct (Hempty eq_refl) as (Hid & _ & Hminted).
    split; [exact Hid | exact Hminted].
Defined.

Lemma upsert_sends
    {Request C : Type} `{!qmgo.Collection C mongostore.Session}
    (m : @mongostore.MongoStore Request) (s : sessions.Session)
    (w : @mongostore.World C) (oid : primitive.ObjectID) (enc : string)
    (t : time.Time) :
  primitive.ObjectIDFromHex (sessions.ID s) = inr oid ->
  (sessions.Values s !! AString "modified" = None /\
   t = mongostore.clock w) \/
  sessions.Values s !! AString "modified" = Some (ATime t) ->
  securecookie.EncodeMultiValues (sessions.Name s) (sessions.Values s)
    (mongostore.Codecs m) = inr enc ->
  let doc := {| mongostore.ID := oid; mongostore.Data := enc;
                mongostore.Modified := t |} in
  mongostore.upsert m s w =
  Some (snd (qmgo.UpsertId (mongostore.coll w) oid doc),
        mongostore.after_query w
          [mongostore.EvEncodeMulti (sessions.Name s);
           mongostore.EvUpsertId oid doc]
          (fst (qmgo.UpsertId (mongostore.coll w) oid doc))).
Proof.
  intros Hoid Hmod Henc doc.
  assert (Hvalid : primitive.IsValidObjectID (sessions.ID s) = true).
  { unfold primitive.IsValidObjectID. now rewrite Hoid. }
  rewrite (upsert_valid_run m s w Hvalid).
  destruct Hmod as [[-> ->]| ->];
    now rewrite (upsertAt_run m s w _ oid Hoid), Henc.
Qed.

(** What [Save] does once the id is ensured, for any session [s1] and world
    [w1] it has reached by then. *)
Lemma Save_after_ensureID
    {Request C : Type} `{!qmgo.Collection C mongostore.Session}
    (m : @mongostore.MongoStore Request) (s1 : sessions.Session)
    (w1 : @mongostore.World C) (o : sessions.Options) :
  mongostore.heap w1 !! sessions.OptionsPtr s1 = Some o ->
  exists uerr w2 err w' evs,
    mongostore.upsert m s1 w1 = Some (uerr, w2) /\
    mongostore.upsert_outcome m s1 w1 uerr w2 /\
    (err, w') =
      match uerr with
      | Some e => (Some e, w2)
      | None =>
          match securecookie.EncodeMultiID (sessions.Name s1)
                  (sessions.ID s1) (mongostore.Codecs m) with
          | inl e =>
              (Some e,
               mongostore.after_calls w2
                 [mongostore.EvEncodeMulti (sessions.Name s1)])
          | inr tok =>
              (None,
               mongostore.after_calls w2
                 [mongostore.EvEncodeMulti (sessions.Name s1);
                  mongostore.EvSetToken (sessions.Name s1) tok o])
          end
      end /\
    mongostore.heap w2 = mongostore.heap w1 /\
    mongostore.trace w' = mongostore.trace w1 ++ evs /\
    (forall e,
       primitive.IsValidObjectID (sessions.ID s1) = true ->
       (forall v, sessions.Values s1 !! AString "modified" = Some v ->
                  exists t, v = ATime t) ->
       securecookie.EncodeMultiValues (sessions.Name s1) (sessions.Values s1)
         (mongostore.Codecs m) = inl e ->
       uerr = Some e) /\
    (forall oid enc t,
       primitive.ObjectIDFromHex (sessions.ID s1) = inr oid ->
       (sessions.Values s1 !! AString "modified" = None /\
        t = mongostore.clock w1) \/
       sessions.Values s1 !! AString "modified" = Some (ATime t) ->
       securecookie.EncodeMultiValues (sessions.Name s1) (sessions.Values s1)
         (mongostore.Codecs m) = inr enc ->
       (uerr, w2) =
         (snd (qmgo.UpsertId (mongostore.coll w1) oid
                 {| mongostore.ID := oid; mongostore.Data := enc;
                    mongostore.Modified := t |}),
          mongostore.after_query w1
            [mongostore.EvEncodeMulti (sessions.Name s1);
             mongostore.EvUpsertId oid
               {| mongostore.ID := oid; mongostore.Data := enc;
                  mongostore.Modified := t |}]
            (fst (qmgo.UpsertId (mongostore.coll w1) oid
                    {| mongostore.ID := oid; mongostore.Data := enc;
                       mongostore.Modified := t |})))) /\
    (forall e, uerr = Some e ->
       err = Some e /\
       Forall (fun ev => mongostore.isTokenWrite ev = false) evs) /\
    (forall e, uerr = None ->
       securecookie.EncodeMultiID (sessions.Name s1) (sessions.ID s1)
         (mongostore.Codecs m) = inl e ->
       err = Some e /\
       Forall (fun ev => mongostore.isTokenWrite ev = false) evs) /\
    (Exists (fun ev => mongostore.isTokenWrite ev = true) evs ->
       uerr = None /\ err = None /\
       exists oid doc tok,
         primitive.ObjectIDFromHex (sessions.ID s1) = inr oid /\
         qmgo.UpsertId (mongostore.coll w1) oid doc
         = (mongostore.coll w', None) /\
         evs = [mongostore.EvEncodeMulti (sessions.Name s1);
                mongostore.EvUpsertId oid doc;
                mongostore.EvEncodeMulti (sessions.Name s1);
                mongostore.EvSetToken (sessions.Name s1) tok o]).
Proof.
  intros Ho.
  destruct (upsert_outcome_total m s1 w1) as (uerr & w2 & Hup & Hout).
  assert (Henc : forall e,
             primitive.IsValidObjectID (sessions.ID s1) = true ->
             (forall v, sessions.Values s1 !! AString "modified" = Some v ->
                        exists t, v = ATime t) ->
             securecookie.EncodeMultiValues (sessions.Name s1)
               (sessions.Values s1) (mongostore.Codecs m) = inl e ->
             uerr = Some e).
  { intros e Hvalid Htyped Hfail.
    destruct (valid_ObjectIDFromHex _ Hvalid) as [oid Hoid].
    rewrite (upsert_valid_run m s1 w1 Hvalid) in Hup.
    destruct (sessions.Values s1 !! AString "modified") as [v|] eqn:Hv.
    - destruct (Htyped v eq_refl) as [t ->].
      rewrite (upsertAt_run m s1 w1 t oid Hoid), Hfail in Hup. congruence.
    - rewrite (upsertAt_run m s1 w1 _ oid Hoid), Hfail in Hup. congruence. }
  assert (Hsends : forall oid enc t,
             primitive.ObjectIDFromHex (sessions.ID s1) = inr oid ->
             (sessions.Values s1 !! AString "modified" = None /\
              t = mongostore.clock w1) \/
             sessions.Values s1 !! AString "modified" = Some (ATime t) ->
             securecookie.EncodeMultiValues (sessions.Name s1)
               (sessions.Values s1) (mongostore.Codecs m) = inr enc ->
             (uerr, w2) =
               (snd (qmgo.UpsertId (mongostore.coll w1) oid
                       {| mongostore.ID := oid; mongostore.Data := enc;
                          mongostore.Modified := t |}),
                mongostore.after_query w1
                  [mongostore.EvEncodeMulti (sessions.Name s1);
                   mongostore.EvUpsertId oid
                     {| mongostore.ID := oid; mongostore.Data := enc;
                        mongostore.Modified := t |}]
                  (fst (qmgo.UpsertId (mongostore.coll w1) oid
                          {| mongostore.ID := oid; mongostore.Data := enc;
                             mongostore.Modified := t |})))).
  { intros oid enc t Hoid Hmod Hok.
    rewrite (upsert_sends m s1 w1 oid enc t Hoid Hmod Hok) in Hup.
    cbv zeta in Hup. congruence. }
  exists uerr, w2.
  destruct uerr as [e|].
  - destruct (upsert_outcome_frame _ _ _ _ _ Hout)
      as (Hh2 & _ & evs2 & Ht2 & Hnotok).
    exists (Some e), w2, evs2.
    split; [exact Hup|]. split; [exact Hout|]. split; [reflexivity|].
    split; [exact Hh2|]. split; [exact Ht2|]. split; [exact Henc|]. split; [exact Hsends|].
    split; [intros e' He'; split; [congruence | exact Hnotok]|].
    split; [discriminate|].
    intros Hex. exfalso. apply Exists_exists in Hex as (ev & Hin & Hev).
    rewrite Forall_forall in Hnotok. specialize (Hnotok ev Hin). congruence.
  - pose proof Hout as Hsent.
    inversion Hout as [ | | oid doc Hoid Hid Hvals Hsnd Hw2 ]. clear Hout.
    subst w2. rewrite Hsnd.
    pose proof (surjective_pairing
                  (qmgo.UpsertId (mongostore.coll w1) oid doc)) as Hpair.
    rewrite Hsnd in Hpair.
    destruct (securecookie.EncodeMultiID _ _ _) as [e|tok] eqn:Htok.
    + eexists (Some e), _,
        [mongostore.EvEncodeMulti (sessions.Name s1);
         mongostore.EvUpsertId oid doc;
         mongostore.EvEncodeMulti (sessions.Name s1)].
      split; [exact Hup|]. split; [exact Hsent|].
      split; [reflexivity|]. split; [reflexivity|].
      split; [cbn; now rewrite <- app_assoc|]. split; [exact Henc|]. split; [exact Hsends|].
      split; [discriminate|].
      split; [intros e' _ [= <-]; split; [reflexivity|repeat constructor]|].
      intros Hex. exfalso.
      repeat (apply Exists_cons in Hex as [Hev|Hex]; [discriminate Hev|]).
      now apply Exists_nil in Hex.
    + eexists None, _,
        [mongostore.EvEncodeMulti (sessions.Name s1);
         mongostore.EvUpsertId oid doc;
         mongostore.EvEncodeMulti (sessions.Name s1);
         mongostore.EvSetToken (sessions.Name s1) tok o].
      split; [exact Hup|]. split; [exact Hsent|].
      split; [reflexivity|]. split; [reflexivity|].
      split; [cbn; now rewrite <- app_assoc|]. split; [exact Henc|]. split; [exact Hsends|].
      split; [discriminate|]. split; [discriminate|].
      intros _. split; [reflexivity|]. split; [reflexivity|].
      exists oid, doc, tok. split; [exact Hoid|]. split; [|reflexivity].
      exact Hpair.
Qed.

(** C6: with a non-negative max age, let [s1] and [w1] be the session and
    the world once the id is ensured, and let [upsert] on them return
    [uerr] and leave the world [w2]: it made no call, or only the encoding
    of the values, or that encoding and one [UpsertId], whose answer it
    returned.  [Save] continues from [w2]: if [uerr] is an error, which it
    is when the encoding of the values or the collection's upsert fails,
    [Save] returns it with [w2]; if the encoding of the id then fails,
    [Save] returns that error after that one more call; in both cases no
    token write is among the calls made.  A token write is among the calls
    of [Save] only in a run that is exactly: values encoded, record
    upserted with the collection returning no error, id encoded, token
    written, the collection being the one that upsert left. *)
Theorem Save_writes_token_only_after_upsert
    {Request C : Type} `{!qmgo.Collection C mongostore.Session}
    (m : @mongostore.MongoStore Request) (r : Request)
    (s : sessions.Session) (w : @mongostore.World C)
    (o : sessions.Options) :
  mongostore.heap w !! sessions.OptionsPtr s = Some o ->
  (0 <= sessions.MaxAge o)%Z ->
  exists s1 w1 uerr w2 err w' evs,
    mongostore.ensureID s w = Some (s1, w1) /\
    mongostore.upsert m s1 w1 = Some (uerr, w2) /\
    mongostore.upsert_outcome m s1 w1 uerr w2 /\
    mongostore.Save m r s w = Some ((s1, err), w') /\
    (err, w') =
      match uerr with
      | Some e => (Some e, w2)
      | None =>
          match securecookie.EncodeMultiID (sessions.Name s1)
                  (sessions.ID s1) (mongostore.Codecs m) with
          | inl e =>
              (Some e,
               mongostore.after_calls w2
                 [mongostore.EvEncodeMulti (sessions.Name s1)])
          | inr tok =>
              (None,
               mongostore.after_calls w2
                 [mongostore.EvEncodeMulti (sessions.Name s1);
                  mongostore.EvSetToken (sessions.Name s1) tok o])
          end
      end /\
    mongostore.trace w' = mongostore.trace w ++ evs /\
    (forall e,
       primitive.IsValidObjectID (sessions.ID s1) = true ->
       (forall v, sessions.Values s1 !! AString "modified" = Some v ->
                  exists t, v = ATime t) ->
       securecookie.EncodeMultiValues (sessions.Name s1) (sessions.Values s1)
         (mongostore.Codecs m) = inl e ->
       uerr = Some e) /\
    (forall oid enc t,
       primitive.ObjectIDFromHex (sessions.ID s1) = inr oid ->
       (sessions.Values s1 !! AString "modified" = None /\
        t = mongostore.clock w) \/
       sessions.Values s1 !! AString "modified" = Some (ATime t) ->
       securecookie.EncodeMultiValues (sessions.Name s1) (sessions.Values s1)
         (mongostore.Codecs m) = inr enc ->
       (uerr, w2) =
         (snd (qmgo.UpsertId (mongostore.coll w) oid
                 {| mongostore.ID := oid; mongostore.Data := enc;
                    mongostore.Modified := t |}),
          mongostore.after_query w1
            [mongostore.EvEncodeMulti (sessions.Name s1);
             mongostore.EvUpsertId oid
               {| mongostore.ID := oid; mongostore.Data := enc;
                  mongostore.Modified := t |}]
            (fst (qmgo.UpsertId (mongostore.coll w) oid
                    {| mongostore.ID := oid; mongostore.Data := enc;
                       mongostore.Modified := t |})))) /\
    (forall e, uerr = Some e ->
       err = Some e /\
       Forall (fun ev => mongostore.isTokenWrite ev = false) evs) /\
    (forall e, uerr = None ->
       securecookie.EncodeMultiID (sessions.Name s1) (sessions.ID s1)
         (mongostore.Codecs m) = inl e ->
       err = Some e /\
       Forall (fun ev => mongostore.isTokenWrite ev = false) evs) /\
    (Exists (fun ev => mongostore.isTokenWrite ev = true) evs ->
       uerr = None /\ err = None /\
       exists oid doc tok,
         primitive.ObjectIDFromHex (sessions.ID s1) = inr oid /\
         qmgo.UpsertId (mongostore.coll w) oid doc
         = (mongostore.coll w', None) /\
         evs = [mongostore.EvEncodeMulti (sessions.Name s1);
                mongostore.EvUpsertId oid doc;
                mongostore.EvEncodeMulti (sessions.Name s1);
                mongostore.EvSetToken (sessions.Name s1) tok o]).
Proof.
  intros Ho Hpos. rewrite (Save_nonnegative_run m r s w o Ho Hpos).
  rewrite ensureID_run.
  assert (Hgo : forall s1 (w1 : @mongostore.World C),
             mongostore.heap w1 !! sessions.OptionsPtr s1 = Some o ->
             mongostore.trace w1 = mongostore.trace w ->
             mongostore.coll w1 = mongostore.coll w ->
             mongostore.clock w1 = mongostore.clock w ->
             exists uerr w2 err w' evs,
               mongostore.upsert m s1 w1 = Some (uerr, w2) /\
               mongostore.upsert_outcome m s1 w1 uerr w2 /\
               match mongostore.upsert m s1 w1 with
               | None => None
               | Some (Some e, w2) => Some ((s1, Some e), w2)
               | Some (None, w2) =>
                   match securecookie.EncodeMultiID (sessions.Name s1)
                           (sessions.ID s1) (mongostore.Codecs m) with
                   | inl e =>
                       Some ((s1, Some e),
                             mongostore.after_calls w2
                               [mongostore.EvEncodeMulti (sessions.Name s1)])
                   | inr tok =>
                       match mongostore.heap w2 !! sessions.OptionsPtr s1
                       with
                       | Some o' =>
                           Some ((s1, None),
                                 mongostore.after_calls w2
                                   [mongostore.EvEncodeMulti
                                      (sessions.Name s1);
                                    mongostore.EvSetToken (sessions.Name s1)
                                      tok o'])
                       | None => None
                       end
                   end
               end = Some ((s1, err), w') /\
               (err, w') =
                 match uerr with
                 | Some e => (Some e, w2)
                 | None =>
                     match securecookie.EncodeMultiID (sessions.Name s1)
                             (sessions.ID s1) (mongostore.Codecs m) with
                     | inl e =>
                         (Some e,
                          mongostore.after_calls w2
                            [mongostore.EvEncodeMulti (sessions.Name s1)])
                     | inr tok =>
                         (None,
                          mongostore.after_calls w2
                            [mongostore.EvEncodeMulti (sessions.Name s1);
                             mongostore.EvSetToken (sessions.Name s1) tok o])
                     end
                 end /\
               mongostore.trace w' = mongostore.trace w ++ evs /\
               (forall e,
                  primitive.IsValidObjectID (sessions.ID s1) = true ->
                  (forall v,
                     sessions.Values s1 !! AString "modified" = Some v ->
                     exists t, v = ATime t) ->
                  securecookie.EncodeMultiValues (sessions.Name s1)
                    (sessions.Values s1) (mongostore.Codecs m) = inl e ->
                  uerr = Some e) /\
               (forall oid enc t,
                  primitive.ObjectIDFromHex (sessions.ID s1) = inr oid ->
                  (sessions.Values s1 !! AString "modified" = None /\
                   t = mongostore.clock w) \/
                  sessions.Values s1 !! AString "modified" = Some (ATime t) ->
                  securecookie.EncodeMultiValues (sessions.Name s1) (sessions.Values s1)
                    (mongostore.Codecs m) = inr enc ->
                  (uerr, w2) =
                    (snd (qmgo.UpsertId (mongostore.coll w) oid
                            {| mongostore.ID := oid; mongostore.Data := enc;
                               mongostore.Modified := t |}),
                     mongostore.after_query w1
                       [mongostore.EvEncodeMulti (sessions.Name s1);
                        mongostore.EvUpsertId oid
                          {| mongostore.ID := oid; mongostore.Data := enc;
                             mongostore.Modified := t |}]
                       (fst (qmgo.UpsertId (mongostore.coll w) oid
                               {| mongostore.ID := oid; mongostore.Data := enc;
                                  mongostore.Modified := t |})))) /\
               (forall e, uerr = Some e ->
                  err = Some e /\
                  Forall (fun ev => mongostore.isTokenWrite ev = false) evs)
               /\
               (forall e, uerr = None ->
                  securecookie.EncodeMultiID (sessions.Name s1)
                    (sessions.ID s1) (mongostore.Codecs m) = inl e ->
                  err = Some e /\
                  Forall (fun ev => mongostore.isTokenWrite ev = false) evs)
               /\
               (Exists (fun ev => mongostore.isTokenWrite ev = true) evs ->
                  uerr = None /\ err = None /\
                  exists oid doc tok,
                    primitive.ObjectIDFromHex (sessions.ID s1) = inr oid /\
                    qmgo.UpsertId (mongostore.coll w) oid doc
                    = (mongostore.coll w', None) /\
                    evs = [mongostore.EvEncodeMulti (sessions.Name s1);
                           mongostore.EvUpsertId oid doc;
                           mongostore.EvEncodeMulti (sessions.Name s1);
                           mongostore.EvSetToken (sessions.Name s1) tok o])).
  { intros s1 w1 Ho1 Htr Hcoll Hclock.
    destruct (Save_after_ensureID m s1 w1 o Ho1)
      as (uerr & w2 & err & w' & evs & Hup & Hout & Htie & Hh2 & Ht & Henc
          & Hsends & Hfail & Hidfail & Htoken).
    exists uerr, w2, err, w', evs.
    split; [exact Hup|]. split; [exact Hout|].
    split.
    { rewrite Hup. destruct uerr as [e|].
      - inversion Htie; subst; reflexivity.
      - destruct (securecookie.EncodeMultiID _ _ _) as [e|tok].
        + inversion Htie; subst; reflexivity.
        + rewrite Hh2, Ho1. inversion Htie; subst; reflexivity. }
    split; [exact Htie|]. rewrite <- Htr, <- Hcoll, <- Hclock.
    split; [exact Ht|]. split; [exact Henc|]. split; [exact Hsends|]. split; [exact Hfail|].
    split; [exact Hidfail | exact Htoken]. }
  destruct (String.eqb (sessions.ID s) "").
  - match goal with
    | |- exists s1 w1 uerr w2 err w' evs, Some (?s0, ?w0) = _ /\ _ =>
        destruct (Hgo s0 w0 Ho eq_refl eq_refl eq_refl)
          as (uerr & w2 & err & w' & evs & Hup & Hout & Hrun & Hrest);
        exists s0, w0, uerr, w2, err, w', evs
    end.
    split; [reflexivity|]. split; [exact Hup|]. split; [exact Hout|].
    split; [exact Hrun | exact Hrest].
  - destruct (Hgo s w Ho eq_refl eq_refl eq_refl)
      as (uerr & w2 & err & w' & evs & Hup & Hout & Hrun & Hrest).
    exists s, w, uerr, w2, err, w', evs.
    split; [reflexivity|]. split; [exact Hup|]. split; [exact Hout|].
    split; [exact Hrun | exact Hrest].
Qed.

Lemma Save_writes_token_only_after_upsert_witness :
  mongostore.heap example.world !! 0%nat = Some example.defaults /\
  (0 <= sessions.MaxAge example.defaults)%Z /\
  exists w' evs,
    mongostore.Save (example.store [example.plain]) []
      (example.session example.someID ∅ 0%nat) example.world
    = Some ((example.session example.someID ∅ 0%nat, None), w') /\
    mongostore.trace w' = mongostore.trace example.world ++ evs /\
    Exists (fun ev => mongostore.isTokenWrite ev = true) evs /\
    qmgo.UpsertId example.emptyDB example.someOID example.savedDoc
    = (mongostore.coll w', None) /\
    evs = [mongostore.EvEncodeMulti "sid";
           mongostore.EvUpsertId example.someOID example.savedDoc;
           mongostore.EvEncodeMulti "sid";
           mongostore.EvSetToken "sid" example.someID example.defaults].
Proof.
  split; [reflexivity|]. split; [discriminate|].
  destruct (Save_writes_token_only_after_upsert
              (example.store [example.plain]) []
              (example.session example.someID ∅ 0%nat) example.world
              example.defaults)
    as (s1 & w1 & uerr & w2 & err & w' & evs & Hid & Hup & _ & Hsave & Htie
        & Htr & _).
  - reflexivity.
  - discriminate.
  - vm_compute in Hid. injection Hid as <- <-.
    vm_compute in Hup. injection Hup as <- <-.
    vm_compute in Htie. injection Htie as -> ->.
    exists
      (mongostore.after_query example.world
         [mongostore.EvEncodeMulti "sid";
          mongostore.EvUpsertId example.someOID example.savedDoc;
          mongostore.EvEncodeMulti "sid";
          mongostore.EvSetToken "sid" example.someID example.defaults]
         example.savedDB).
    eexists. split; [exact Hsave|].
    split; [reflexivity|].
    split; [do 3 apply Exists_cons_tl; now apply Exists_cons_hd|].
    split; reflexivity.
Defined.

(** *** The [modified] field of the record *)

(** C4: when the values hold ["modified"] bound to something that is not a
    [time.Time], [upsert] returns an error ([ErrInvalidModified] once the id
    is valid) without any call, and so does [Save] on its upsert path: the
    collection and the trace stay as they were.  Otherwise, for a valid id
    and values that encode, the record [upsert] hands to the collection has
    [Modified] equal to the clock when the key is absent and equal to the
    bound instant when it is present. *)
Theorem upsert_modified_field
    {Request C : Type} `{!qmgo.Collection C mongostore.Session}
    (m : @mongostore.MongoStore Request) (r : Request)
    (s : sessions.Session) (w : @mongostore.World C) :
  (forall v,
     sessions.Values s !! AString "modified" = Some v ->
     (forall t, v <> ATime t) ->
     (exists e,
        mongostore.upsert m s w = Some (Some e, w) /\
        (primitive.IsValidObjectID (sessions.ID s) = true ->
         e = ErrInvalidModified)) /\
     (forall o,
        mongostore.heap w !! sessions.OptionsPtr s = Some o ->
        (0 <= sessions.MaxAge o)%Z ->
        exists s1 e w1,
          mongostore.Save m r s w = Some ((s1, Some e), w1) /\
          mongostore.coll w1 = mongostore.coll w /\
          mongostore.trace w1 = mongostore.trace w)) /\
  (forall oid enc t,
     primitive.ObjectIDFromHex (sessions.ID s) = inr oid ->
     securecookie.EncodeMultiValues (sessions.Name s) (sessions.Values s)
       (mongostore.Codecs m) = inr enc ->
     (sessions.Values s !! AString "modified" = None /\
      t = mongostore.clock w) \/
     sessions.Values s !! AString "modified" = Some (ATime t) ->
     let doc := {| mongostore.ID := oid; mongostore.Data := enc;
                   mongostore.Modified := t |} in
     mongostore.upsert m s w =
     Some (snd (qmgo.UpsertId (mongostore.coll w) oid doc),
           mongostore.after_query w
             [mongostore.EvEncodeMulti (sessions.Name s);
              mongostore.EvUpsertId oid doc]
             (fst (qmgo.UpsertId (mongostore.coll w) oid doc)))).
Proof.
  split.
  - intros v Hv Hnt.
    assert (Hbad : forall s1 w1,
               sessions.Values s1 = sessions.Values s ->
               exists e,
                 mongostore.upsert m s1 w1 = Some (Some e, w1) /\
                 (primitive.IsValidObjectID (sessions.ID s1) = true ->
                  e = ErrInvalidModified)).
    { intros s1 w1 Hvals.
      destruct (primitive.IsValidObjectID (sessions.ID s1)) eqn:Hvalid.
      - exists ErrInvalidModified. split; [|reflexivity].
        rewrite (upsert_valid_run m s1 w1 Hvalid), Hvals, Hv.
        destruct v; try reflexivity. now destruct (Hnt t).
      - exists ErrInvalidId. split; [|discriminate].
        unfold mongostore.upsert. now rewrite Hvalid. }
    split; [now apply Hbad|].
    intros o Ho Hpos. rewrite (Save_nonnegative_run m r s w o Ho Hpos).
    rewrite ensureID_run.
    destruct (String.eqb (sessions.ID s) "").
    + destruct (Hbad (sessions.withID
                        (primitive.Hex
                           (mongostore.objectIDs w (mongostore.minted w)
                            mod primitive.ObjectID_modulus)%N) s)
                  (mongostore.withMinted (S (mongostore.minted w)) w)
                  eq_refl) as (e & -> & _).
      eexists _, e, _. repeat split.
    + destruct (Hbad s w eq_refl) as (e & -> & _).
      eexists _, e, _. repeat split.
  - intros oid enc t Hoid Henc Hmod doc.
    assert (Hvalid : primitive.IsValidObjectID (sessions.ID s) = true).
    { unfold primitive.IsValidObjectID. now rewrite Hoid. }
    rewrite (upsert_valid_run m s w Hvalid).
    destruct Hmod as [[-> ->]| ->];
      now rewrite (upsertAt_run m s w _ oid Hoid), Henc.
Qed.

Lemma upsert_modified_field_witness :
  sessions.Values example.corrupt !! AString "modified"
  = Some (AString "yesterday") /\
  (forall t, AString "yesterday" <> ATime t) /\
  exists e,
    mongostore.upsert (example.store [example.plain]) example.corrupt
      example.world
    = Some (Some e, example.world) /\
    (primitive.IsValidObjectID (sessions.ID example.corrupt) = true ->
     e = ErrInvalidModified).
Proof.
  split; [reflexivity|]. split; [discriminate|].
  apply (proj1 (upsert_modified_field
                  (example.store [example.plain]) [] example.corrupt
                  example.world)
           (AString "yesterday")).
  - reflexivity.
  - discriminate.
Defined.

(** *** Looking a session up *)

(** C1, as the code has it: [New] always returns a session, and whenever a
    lookup step fails that session has [IsNew = true] and no values.  No
    error is returned when the token is missing, when the decoded id is
    malformed, when the find fails (record not found, or any other error of
    the collection) and when the payload does not decode; when the token
    does not decode to an id, the decode error is returned together with the
    fresh session. *)
Theorem New_failed_lookup_gives_fresh_session
    {Request C : Type} `{!qmgo.Collection C mongostore.Session}
    (m : @mongostore.MongoStore Request) (r : Request) (name : string)
    (w : @mongostore.World C) (defaults : sessions.Options) :
  mongostore.heap w !! mongostore.Options m = Some defaults ->
  exists s err w',
    mongostore.New m r name w = Some ((s, err), w') /\
    (forall e,
       mongostore.GetToken (mongostore.Token m) r name = inl e ->
       sessions.IsNew s = true /\ sessions.Values s = ∅ /\ err = None) /\
    (forall cook e,
       mongostore.GetToken (mongostore.Token m) r name = inr cook ->
       securecookie.DecodeMultiID name cook (mongostore.Codecs m) = inl e ->
       sessions.IsNew s = true /\ sessions.Values s = ∅ /\ err = Some e) /\
    (forall cook id,
       mongostore.GetToken (mongostore.Token m) r name = inr cook ->
       securecookie.DecodeMultiID name cook (mongostore.Codecs m) = inr id ->
       primitive.IsValidObjectID id = false ->
       sessions.IsNew s = true /\ sessions.Values s = ∅ /\ err = None) /\
    (forall cook id oid e,
       mongostore.GetToken (mongostore.Token m) r name = inr cook ->
       securecookie.DecodeMultiID name cook (mongostore.Codecs m) = inr id ->
       primitive.ObjectIDFromHex id = inr oid ->
       qmgo.FindOne (mongostore.coll w) oid = inl e ->
       sessions.IsNew s = true /\ sessions.Values s = ∅ /\ err = None) /\
    (forall cook id oid doc e,
       mongostore.GetToken (mongostore.Token m) r name = inr cook ->
       securecookie.DecodeMultiID name cook (mongostore.Codecs m) = inr id ->
       primitive.ObjectIDFromHex id = inr oid ->
       qmgo.FindOne (mongostore.coll w) oid = inr doc ->
       securecookie.DecodeMultiValues name (mongostore.Data doc)
         (mongostore.Codecs m) = inl e ->
       sessions.IsNew s = true /\ sessions.Values s = ∅ /\ err = None).
Proof.
  intros Hdef. rewrite (New_run m r name w defaults Hdef). cbv zeta.
  destruct (mongostore.GetToken (mongostore.Token m) r name)
    as [e0|cook0] eqn:Htok.
  { eexists _, _, _. split; [reflexivity|].
    repeat split; intros; congruence. }
  destruct (securecookie.DecodeMultiID name cook0 (mongostore.Codecs m))
    as [e0|id0] eqn:Hdec.
  { eexists _, _, _. split; [reflexivity|].
    repeat split; intros; simplify_eq; congruence. }
  rewrite load_run. cbn [sessions.ID sessions.withID sessions.Name].
  destruct (primitive.ObjectIDFromHex id0) as [e0|oid0] eqn:Hoid.
  { eexists _, _, _. split; [reflexivity|].
    repeat split; intros; simplify_eq; congruence. }
  cbn [mongostore.coll mongostore.after_calls mongostore.withTrace
       mongostore.withHeap].
  destruct (qmgo.FindOne (mongostore.coll w) oid0) as [e0|doc0] eqn:Hfind.
  { eexists _, _, _. split; [reflexivity|].
    repeat split; intros; simplify_eq; congruence. }
  cbv zeta.
  destruct (securecookie.DecodeMultiValues name (mongostore.Data doc0)
              (mongostore.Codecs m)) as [e0|values] eqn:Hpay.
  { eexists _, _, _. split; [reflexivity|].
    repeat split; intros; simplify_eq; congruence. }
  eexists _, _, _. split; [reflexivity|].
  repeat split; intros; simplify_eq; try congruence;
    match goal with
    | Hid : securecookie.DecodeMultiID _ _ _ = inr ?id,
      Hbad : primitive.IsValidObjectID ?id = false |- _ =>
        assert (id = id0) as -> by congruence;
        unfold primitive.IsValidObjectID in Hbad; rewrite Hoid in Hbad;
        discriminate Hbad
    end.
Qed.

Lemma New_failed_lookup_gives_fresh_session_witness :
  mongostore.heap example.world !! 0%nat = Some example.defaults /\
  example.cookie [] "sid" = inl (ErrOther "http: named cookie not present") /\
  exists s w',
    mongostore.New (example.store [example.plain]) [] "sid" example.world
    = Some ((s, None), w') /\
    sessions.IsNew s = true /\ sessions.Values s = ∅.
Proof.
  split; [reflexivity|]. split; [reflexivity|].
  destruct (New_failed_lookup_gives_fresh_session
              (example.store [example.plain]) [] "sid" example.world
              example.defaults eq_refl)
    as (s & err & w' & Hrun & Hmissing & _).
  destruct (Hmissing _ eq_refl) as (Hnew & Hvals & ->).
  exists s, w'. split; [exact Hrun|]. split; [exact Hnew | exact Hvals].
Defined.

(** C1 fails as stated: a token that does not decode to an id makes [New]
    return the decode error, not [nil], with the fresh session. *)
Lemma New_returns_token_decode_error :
  example.cookie [("sid", "forged")] "sid" = inr "forged" /\
  securecookie.DecodeMultiID "sid" "forged" [example.rejecting]
  = inl (ErrMulti [example.invalid]) /\
  exists s w',
    mongostore.New (example.store [example.rejecting]) [("sid", "forged")]
      "sid" example.world
    = Some ((s, Some (ErrMulti [example.invalid])), w') /\
    sessions.IsNew s = true /\ sessions.Values s = ∅.
Proof.
  split; [reflexivity|]. split; [reflexivity|].
  eexists _, _. split; [vm_compute; reflexivity|]. split; reflexivity.
Qed.

(** *** The options of a new session *)

Lemma New_heap
    {Request C : Type} `{!qmgo.Collection C mongostore.Session}
    (m : @mongostore.MongoStore Request) (r : Request) (name : string)
    (w : @mongostore.World C) (defaults : sessions.Options) :
  mongostore.heap w !! mongostore.Options m = Some defaults ->
  exists s err w',
    mongostore.New m r name w = Some ((s, err), w') /\
    sessions.OptionsPtr s = S (length (mongostore.heap w)) /\
    mongostore.heap w' =
      mongostore.heap w
      ++ [sessions.zeroOptions; mongostore.copyOptions defaults].
Proof.
  intros Hdef. rewrite (New_run m r name w defaults Hdef). cbv zeta.
  destruct (mongostore.GetToken (mongostore.Token m) r name) as [e|cook];
    [now eexists _, _, _|].
  destruct (securecookie.DecodeMultiID name cook (mongostore.Codecs m))
    as [e|id]; [now eexists _, _, _|].
  rewrite load_run. cbn [sessions.ID sessions.withID sessions.Name].
  destruct (primitive.ObjectIDFromHex id) as [e|oid];
    [now eexists _, _, _|].
  destruct (qmgo.FindOne _ oid) as [e|doc]; [now eexists _, _, _|].
  cbv zeta.
  destruct (securecookie.DecodeMultiValues _ _ _);
    now eexists _, _, _.
Qed.

(** C10: the session [New] returns points to an options record allocated
    by this call (its address lies beyond every address of the heap [New]
    started from, so it differs from the store's and from that of every
    earlier session), holding the store's [Path], [MaxAge], [Domain],
    [Secure] and [HttpOnly].  [New] leaves the earlier records as they were,
    and assigning through the session's pointer changes that record only:
    the store's defaults and every earlier record keep their value. *)
Theorem New_gives_session_its_own_options
    {Request C : Type} `{!qmgo.Collection C mongostore.Session}
    (m : @mongostore.MongoStore Request) (r : Request) (name : string)
    (w : @mongostore.World C) (defaults : sessions.Options) :
  mongostore.heap w !! mongostore.Options m = Some defaults ->
  exists s err w' own,
    mongostore.New m r name w = Some ((s, err), w') /\
    length (mongostore.heap w) <= sessions.OptionsPtr s /\
    sessions.OptionsPtr s <> mongostore.Options m /\
    mongostore.heap w' !! sessions.OptionsPtr s = Some own /\
    (sessions.Path own = sessions.Path defaults /\
     sessions.MaxAge own = sessions.MaxAge defaults /\
     sessions.Domain own = sessions.Domain defaults /\
     sessions.Secure own = sessions.Secure defaults /\
     sessions.HttpOnly own = sessions.HttpOnly defaults) /\
    (forall p, p < length (mongostore.heap w) ->
               mongostore.heap w' !! p = mongostore.heap w !! p) /\
    (forall changed,
       exists w'',
         mongostore.assign (sessions.OptionsPtr s) changed w'
         = Some (tt, w'') /\
         mongostore.heap w'' !! sessions.OptionsPtr s = Some changed /\
         mongostore.heap w'' !! mongostore.Options m = Some defaults /\
         (forall p, p < length (mongostore.heap w) ->
                    mongostore.heap w'' !! p = mongostore.heap w !! p)).
Proof.
  intros Hdef.
  destruct (New_heap m r name w defaults Hdef)
    as (s & err & w' & Hrun & Hptr & Hheap).
  pose proof (lookup_lt_Some _ _ _ Hdef) as Hlt.
  assert (Hown : mongostore.heap w' !! sessions.OptionsPtr s
                 = Some (mongostore.copyOptions defaults)).
  { rewrite Hheap, Hptr. rewrite lookup_app_r by lia.
    replace (S (length (mongostore.heap w)) - length (mongostore.heap w))
      with 1 by lia.
    reflexivity. }
  assert (Hold : forall p, p < length (mongostore.heap w) ->
                           mongostore.heap w' !! p = mongostore.heap w !! p).
  { intros p Hp. rewrite Hheap. now apply lookup_app_l. }
  exists s, err, w', (mongostore.copyOptions defaults).
  split; [exact Hrun|]. split; [lia|]. split; [lia|].
  split; [exact Hown|]. split; [now cbn|]. split; [exact Hold|].
  intros changed. unfold mongostore.assign. rewrite Hown.
  eexists. split; [reflexivity|]. cbn.
  assert (Hin : sessions.OptionsPtr s < length (mongostore.heap w')).
  { now apply lookup_lt_Some in Hown. }
  split; [now apply list_lookup_insert_eq|].
  assert (Hkeep : forall p, p < length (mongostore.heap w) ->
            <[sessions.OptionsPtr s := changed]> (mongostore.heap w') !! p
            = mongostore.heap w !! p).
  { intros p Hp. rewrite list_lookup_insert_ne by lia. now apply Hold. }
  split; [|exact Hkeep].
  rewrite Hkeep by exact Hlt. exact Hdef.
Qed.

Lemma New_gives_session_its_own_options_witness :
  mongostore.heap example.world !! 0%nat = Some example.defaults /\
  exists s err w' own,
    mongostore.New (example.store [example.plain]) [] "sid" example.world
    = Some ((s, err), w') /\
    sessions.OptionsPtr s <> 0%nat /\
    mongostore.heap w' !! sessions.OptionsPtr s = Some own /\
    sessions.MaxAge own = 3600%Z.
Proof.
  split; [reflexivity|].
  destruct (New_gives_session_its_own_options
              (example.store [example.plain]) [] "sid" example.world
              example.defaults eq_refl)
    as (s & err & w' & own & Hrun & _ & Hne & Hown & (_ & Hage & _) & _).
  exists s, err, w', own.
  split; [exact Hrun|]. split; [exact Hne|]. split; [exact Hown|exact Hage].
Defined.

(** *** The expiry index *)

Lemma int64_congruent (z : Z) : exists k : Z, (int64 z = z + k * 2 ^ 64)%Z.
Proof.
  exists (- ((z + 2 ^ 63) / 2 ^ 64))%Z. unfold int64, wrap.
  change (64 - 1)%Z with 63%Z.
  pose proof (Z.div_mod (z + 2 ^ 63) (2 ^ 64)) as Hdm. lia.
Qed.

Lemma int32_congruent (z : Z) : exists k : Z, (int32 z = z + k * 2 ^ 32)%Z.
Proof.
  exists (- ((z + 2 ^ 31) / 2 ^ 32))%Z. unfold int32, wrap.
  change (32 - 1)%Z with 31%Z.
  pose proof (Z.div_mod (z + 2 ^ 31) (2 ^ 32)) as Hdm. lia.
Qed.

Lemma int32_range (z : Z) : (- 2 ^ 31 <= int32 z < 2 ^ 31)%Z.
Proof.
  unfold int32, wrap. change (32 - 1)%Z with 31%Z.
  pose proof (Z.mod_pos_bound (z + 2 ^ 31) (2 ^ 32)) as Hb. lia.
Qed.

(** The value handed to the index is the max age in nanoseconds cut down
    to 32 bits; it is the max age itself for no max age but zero. *)
Lemma expireAfter_is_maxAge_iff (maxAge : Z) :
  mongostore.expireAfter maxAge = maxAge <-> maxAge = 0%Z.
Proof.
  split; [|now intros ->].
  intros Heq. unfold mongostore.expireAfter, time.Second in Heq.
  pose proof (int32_range (int64 (int64 maxAge * 1000000000))) as Hr.
  destruct (int32_congruent (int64 (int64 maxAge * 1000000000))) as [k3 H3].
  destruct (int64_congruent (int64 maxAge * 1000000000)) as [k2 H2].
  destruct (int64_congruent maxAge) as [k1 H1].
  rewrite Heq in Hr. rewrite H3, H2, H1 in Heq.
  assert (Hdiv : (2 ^ 32 | 999999999 * maxAge)%Z).
  { exists (- (k1 * 1000000000 * 2 ^ 32 + k2 * 2 ^ 32 + k3))%Z. lia. }
  apply Z.gauss in Hdiv.
  - destruct Hdiv as [q Hq]. lia.
  - reflexivity.
Qed.

(** C3 fails on the code: with [ensureTTL] set, [NewMongoStore] makes one
    index request, for [modified], sparse and unique, whose expire-after
    value is [int32(time.Duration(maxAge) * time.Second)].  That value is
    [maxAge] only for [maxAge = 0]; for a max age of 60 seconds it is
    -129542144. *)
Theorem NewMongoStore_expire_after
    {Request C : Type} `{!qmgo.Collection C mongostore.Session}
    (CookieToken : @mongostore.TokenGetSeter Request)
    (CodecsFromPairs : list (list Byte.byte) -> list securecookie.Codec)
    (maxAge : Z) (keyPairs : list (list Byte.byte))
    (w : @mongostore.World C) :
  exists store w',
    mongostore.NewMongoStore CookieToken CodecsFromPairs maxAge true keyPairs w
    = Some (store, w') /\
    mongostore.trace w' =
      mongostore.trace w
      ++ [mongostore.EvCreateIndexes
            [ {| qmgo.Key := ["modified"];
                 qmgo.ExpireAfterSeconds :=
                   Some (mongostore.expireAfter maxAge);
                 qmgo.Sparse := Some true;
                 qmgo.Unique := Some true |} ]] /\
    (mongostore.expireAfter maxAge = maxAge <-> maxAge = 0%Z) /\
    mongostore.expireAfter 60 = (-129542144)%Z.
Proof.
  unfold mongostore.NewMongoStore, mongostore.MaxAge. unfold_monad. cbn.
  rewrite (list_lookup_middle (mongostore.heap w) [] _ _ eq_refl). cbn.
  rewrite (list_lookup_middle (mongostore.heap w) [] _ _ eq_refl). cbn.
  destruct (qmgo.CreateIndexes (mongostore.coll w)
              (mongostore.ttlIndex maxAge)) as [c [e|]];
    (eexists _, _; split; [reflexivity|];
     split; [reflexivity|];
     split; [apply expireAfter_is_maxAge_iff | reflexivity]).
Qed.

(** ** Further properties of the store *)

(** *** Loading and looking up *)

(** X1.  [load] only reads: it always returns, leaving the collection, the heap
    and the ObjectID generator as they were and calling nothing but the find
    and the decoding of the payload.  It changes no field of the session but
    [Values], and when it returns an error the session comes back
    unchanged. *)
Theorem load_only_reads
    {Request C : Type} `{!qmgo.Collection C mongostore.Session}
    (m : @mongostore.MongoStore Request) (s : sessions.Session)
    (w : @mongostore.World C) :
  exists s' err w' evs,
    mongostore.load m s w = Some ((s', err), w') /\
    mongostore.coll w' = mongostore.coll w /\
    mongostore.heap w' = mongostore.heap w /\
    mongostore.minted w' = mongostore.minted w /\
    mongostore.trace w' = mongostore.trace w ++ evs /\
    Forall (fun e => mongostore.isLookupCall e = true) evs /\
    (err <> None -> s' = s) /\
    s' = sessions.withValues (sessions.Values s') s.
Proof.
  rewrite load_run.
  destruct (primitive.ObjectIDFromHex (sessions.ID s)) as [e|oid].
  { exists s, (Some ErrInvalidId), w, [].
    rewrite app_nil_r. repeat split; try constructor. now destruct s. }
  destruct (qmgo.FindOne (mongostore.coll w) oid) as [e|doc].
  { eexists s, (Some e), _, _. split; [reflexivity|].
    repeat split; try (repeat constructor). now destruct s. }
  cbv zeta.
  destruct (securecookie.DecodeMultiValues _ _ _) as [e|values].
  - eexists s, (Some e), _, _. split; [reflexivity|].
    repeat split; try (repeat constructor). now destruct s.
  - eexists _, None, _, _. split; [reflexivity|].
    repeat split; try (repeat constructor). intros Hne. now destruct Hne.
Qed.

(** X2.  A successful lookup: when the request carries a token, the token decodes
    to an id of valid format, the collection finds the record and its
    payload decodes, [New] returns no error and a session that is not new,
    with the decoded id and the decoded values, after exactly these four
    calls. *)
Theorem New_successful_lookup
    {Request C : Type} `{!qmgo.Collection C mongostore.Session}
    (m : @mongostore.MongoStore Request) (r : Request) (name : string)
    (w : @mongostore.World C) (defaults : sessions.Options)
    (cook id : string) (oid : primitive.ObjectID) (doc : mongostore.Session)
    (values : gmap any any) :
  mongostore.heap w !! mongostore.Options m = Some defaults ->
  mongostore.GetToken (mongostore.Token m) r name = inr cook ->
  securecookie.DecodeMultiID name cook (mongostore.Codecs m) = inr id ->
  primitive.ObjectIDFromHex id = inr oid ->
  qmgo.FindOne (mongostore.coll w) oid = inr doc ->
  securecookie.DecodeMultiValues name (mongostore.Data doc)
    (mongostore.Codecs m) = inr values ->
  mongostore.New m r name w =
  Some (({| sessions.ID := id; sessions.Values := values;
            sessions.OptionsPtr := S (length (mongostore.heap w));
            sessions.IsNew := false; sessions.Name := name |}, None),
        mongostore.after_calls
          (mongostore.withHeap
             (mongostore.heap w
              ++ [sessions.zeroOptions; mongostore.copyOptions defaults]) w)
          [mongostore.EvGetToken name; mongostore.EvDecodeMulti name cook;
           mongostore.EvFind oid;
           mongostore.EvDecodeMulti name (mongostore.Data doc)]).
Proof.
  intros Hdef Htok Hdec Hoid Hfind Hpay.
  rewrite (New_run m r name w defaults Hdef). cbv zeta.
  rewrite Htok, Hdec, load_run.
  cbn [sessions.ID sessions.withID sessions.Name].
  rewrite Hoid.
  cbn [mongostore.coll mongostore.after_calls mongostore.withTrace
       mongostore.withHeap].
  rewrite Hfind. cbv zeta. rewrite Hpay.
  unfold mongostore.after_calls. cbn. now rewrite <- !app_assoc.
Qed.

Lemma New_successful_lookup_witness :
  mongostore.heap example.savedWorld !! 0%nat = Some example.defaults /\
  example.cookie [("sid", example.someID)] "sid" = inr example.someID /\
  securecookie.DecodeMultiID "sid" example.someID [example.plain]
  = inr example.someID /\
  primitive.ObjectIDFromHex example.someID = inr example.someOID /\
  qmgo.FindOne example.savedDB example.someOID = inr example.savedDoc /\
  securecookie.DecodeMultiValues "sid" "gob" [example.plain] = inr ∅ /\
  exists s w',
    mongostore.New (example.store [example.plain])
      [("sid", example.someID)] "sid" example.savedWorld
    = Some ((s, None), w') /\
    sessions.IsNew s = false /\ sessions.ID s = example.someID.
Proof.
  repeat (split; [reflexivity|]).
  eexists _, _. split.
  - apply (New_successful_lookup
             (example.store [example.plain]) [("sid", example.someID)] "sid"
             example.savedWorld example.defaults example.someID
             example.someID example.someOID example.savedDoc ∅);
      reflexivity.
  - split; reflexivity.
Defined.

(** X3.  [New] only reads too.  With the store's default options allocated it
    always returns a session; the collection and the ObjectID generator are
    as before, the heap has grown by exactly two records and nothing earlier
    in it has changed, and the calls made are lookup calls: no token is
    written, nothing is upserted or removed. *)
Theorem New_only_reads
    {Request C : Type} `{!qmgo.Collection C mongostore.Session}
    (m : @mongostore.MongoStore Request) (r : Request) (name : string)
    (w : @mongostore.World C) (defaults : sessions.Options) :
  mongostore.heap w !! mongostore.Options m = Some defaults ->
  exists s err w' evs,
    mongostore.New m r name w = Some ((s, err), w') /\
    sessions.Name s = name /\
    mongostore.coll w' = mongostore.coll w /\
    mongostore.minted w' = mongostore.minted w /\
    mongostore.heap w' =
      mongostore.heap w
      ++ [sessions.zeroOptions; mongostore.copyOptions defaults] /\
    mongostore.trace w' = mongostore.trace w ++ evs /\
    Forall (fun e => mongostore.isLookupCall e = true) evs.
Proof.
  intros Hdef. rewrite (New_run m r name w defaults Hdef). cbv zeta.
  destruct (mongostore.GetToken (mongostore.Token m) r name) as [e|cook].
  { eexists _, _, _, _. split; [reflexivity|].
    repeat split; repeat constructor. }
  destruct (securecookie.DecodeMultiID name cook (mongostore.Codecs m))
    as [e|id].
  { eexists _, _, _, [_; _]. split; [reflexivity|].
    repeat split; [cbn; now rewrite <- app_assoc | repeat constructor]. }
  match goal with
  | |- context [mongostore.load m ?s1 ?w1] =>
      destruct (load_only_reads m s1 w1)
        as (s' & lerr & w' & evs & -> & Hc & Hh & Hm & Ht & Hev & _ & Hs')
  end.
  assert (Hname : sessions.Name s' = name) by (rewrite Hs'; reflexivity).
  cbn in Hc, Hh, Hm, Ht.
  destruct lerr as [e|].
  - exists s', None, w',
      ([mongostore.EvGetToken name; mongostore.EvDecodeMulti name cook]
       ++ evs).
    split; [reflexivity|]. repeat split; try assumption.
    + rewrite Ht. now rewrite <- !app_assoc.
    + apply Forall_app. split; [repeat constructor | assumption].
  - exists (sessions.withIsNew false s'), None, w',
      ([mongostore.EvGetToken name; mongostore.EvDecodeMulti name cook]
       ++ evs).
    split; [reflexivity|]. repeat split; try assumption.
    + rewrite Ht. now rewrite <- !app_assoc.
    + apply Forall_app. split; [repeat constructor | assumption].
Qed.

Lemma New_only_reads_witness :
  mongostore.heap example.savedWorld !! 0%nat = Some example.defaults /\
  exists s err w' evs,
    mongostore.New (example.store [example.plain])
      [("sid", example.someID)] "sid" example.savedWorld
    = Some ((s, err), w') /\
    mongostore.coll w' = example.savedDB /\
    mongostore.trace w' = evs /\
    Forall (fun e => mongostore.isLookupCall e = true) evs.
Proof.
  split; [reflexivity|].
  destruct (New_only_reads
              (example.store [example.plain]) [("sid", example.someID)] "sid"
              example.savedWorld example.defaults eq_refl)
    as (s & err & w' & evs & Hrun & _ & Hc & _ & _ & Ht & Hev).
  exists s, err, w', evs. repeat split; assumption.
Defined.

(** *** Saving: the upsert path *)

Lemma valid_id_not_empty (id : string) (oid : primitive.ObjectID) :
  primitive.ObjectIDFromHex id = inr oid -> String.eqb id "" = false.
Proof.
  intros Hoid. destruct (String.eqb_spec id "") as [->|]; [|reflexivity].
  discriminate Hoid.
Qed.

(** X4.  A successful save of a session that has an id: with a non-negative max
    age, a well-typed or absent ["modified"], values that encode, an upsert
    the collection accepts and an id that encodes, [Save] returns no error
    and the session as it came, after four calls: the encoding of the
    values, the upsert of the record under the decoded id, the encoding of
    the id, and the write of that token with the session's own options. *)
Theorem Save_success
    {Request C : Type} `{!qmgo.Collection C mongostore.Session}
    (m : @mongostore.MongoStore Request) (r : Request)
    (s : sessions.Session) (w : @mongostore.World C) (o : sessions.Options)
    (oid : primitive.ObjectID) (t : time.Time) (enc tok : string) (c' : C) :
  mongostore.heap w !! sessions.OptionsPtr s = Some o ->
  (0 <= sessions.MaxAge o)%Z ->
  primitive.ObjectIDFromHex (sessions.ID s) = inr oid ->
  (sessions.Values s !! AString "modified" = None /\
   t = mongostore.clock w) \/
  sessions.Values s !! AString "modified" = Some (ATime t) ->
  securecookie.EncodeMultiValues (sessions.Name s) (sessions.Values s)
    (mongostore.Codecs m) = inr enc ->
  qmgo.UpsertId (mongostore.coll w) oid
    {| mongostore.ID := oid; mongostore.Data := enc;
       mongostore.Modified := t |} = (c', None) ->
  securecookie.EncodeMultiID (sessions.Name s) (sessions.ID s)
    (mongostore.Codecs m) = inr tok ->
  mongostore.Save m r s w =
  Some ((s, None),
        mongostore.after_query w
          [mongostore.EvEncodeMulti (sessions.Name s);
           mongostore.EvUpsertId oid
             {| mongostore.ID := oid; mongostore.Data := enc;
                mongostore.Modified := t |};
           mongostore.EvEncodeMulti (sessions.Name s);
           mongostore.EvSetToken (sessions.Name s) tok o] c').
Proof.
  intros Ho Hpos Hoid Hmod Henc Hup Htok.
  rewrite (Save_nonnegative_run m r s w o Ho Hpos), ensureID_run.
  rewrite (valid_id_not_empty _ _ Hoid).
  rewrite (upsert_sends m s w oid enc t Hoid Hmod Henc). cbv zeta.
  rewrite Hup. cbn [fst snd]. rewrite Htok.
  cbn [mongostore.heap mongostore.after_query mongostore.after_calls
       mongostore.withColl mongostore.withTrace].
  rewrite Ho. unfold mongostore.after_query, mongostore.after_calls. cbn.
  now rewrite <- app_assoc.
Qed.

Lemma Save_success_witness :
  mongostore.heap example.world !! 0%nat = Some example.defaults /\
  (0 <= sessions.MaxAge example.defaults)%Z /\
  primitive.ObjectIDFromHex example.someID = inr example.someOID /\
  securecookie.EncodeMultiValues "sid" ∅ [example.plain] = inr "gob" /\
  qmgo.UpsertId example.emptyDB example.someOID example.savedDoc
  = (example.savedDB, None) /\
  securecookie.EncodeMultiID "sid" example.someID [example.plain]
  = inr example.someID /\
  mongostore.Save (example.store [example.plain]) []
    (example.session example.someID ∅ 0%nat) example.world =
  Some ((example.session example.someID ∅ 0%nat, None),
        mongostore.after_query example.world
          [mongostore.EvEncodeMulti "sid";
           mongostore.EvUpsertId example.someOID example.savedDoc;
           mongostore.EvEncodeMulti "sid";
           mongostore.EvSetToken "sid" example.someID example.defaults]
          example.savedDB).
Proof.
  split; [reflexivity|]. split; [discriminate|].
  repeat (split; [reflexivity|]).
  apply (Save_success (example.store [example.plain]) []
           (example.session example.someID ∅ 0%nat) example.world
           example.defaults example.someOID 1700000000000000000%Z
           "gob" example.someID example.savedDB).
  - reflexivity.
  - discriminate.
  - reflexivity.
  - left. split; reflexivity.
  - reflexivity.
  - reflexivity.
  - reflexivity.
Defined.

(** X5.  The first save of a session: with the empty id, the record is upserted
    under the ObjectID the generator returns, the session's id becomes its
    hex form, and the token written is the encoding of that hex form. *)
Theorem Save_first_time
    {Request C : Type} `{!qmgo.Collection C mongostore.Session}
    (m : @mongostore.MongoStore Request) (r : Request)
    (s : sessions.Session) (w : @mongostore.World C) (o : sessions.Options)
    (t : time.Time) (enc tok : string) (c' : C) :
  let oid := (mongostore.objectIDs w (mongostore.minted w)
              mod primitive.ObjectID_modulus)%N in
  let doc := {| mongostore.ID := oid; mongostore.Data := enc;
                mongostore.Modified := t |} in
  mongostore.heap w !! sessions.OptionsPtr s = Some o ->
  (0 <= sessions.MaxAge o)%Z ->
  sessions.ID s = "" ->
  (sessions.Values s !! AString "modified" = None /\
   t = mongostore.clock w) \/
  sessions.Values s !! AString "modified" = Some (ATime t) ->
  securecookie.EncodeMultiValues (sessions.Name s) (sessions.Values s)
    (mongostore.Codecs m) = inr enc ->
  qmgo.UpsertId (mongostore.coll w) oid doc = (c', None) ->
  securecookie.EncodeMultiID (sessions.Name s) (primitive.Hex oid)
    (mongostore.Codecs m) = inr tok ->
  mongostore.Save m r s w =
  Some ((sessions.withID (primitive.Hex oid) s, None),
        mongostore.after_query
          (mongostore.withMinted (S (mongostore.minted w)) w)
          [mongostore.EvEncodeMulti (sessions.Name s);
           mongostore.EvUpsertId oid doc;
           mongostore.EvEncodeMulti (sessions.Name s);
           mongostore.EvSetToken (sessions.Name s) tok o] c').
Proof.
  cbv zeta. intros Ho Hpos Hid Hmod Henc Hup Htok.
  rewrite (Save_nonnegative_run m r s w o Ho Hpos), ensureID_run.
  rewrite Hid. cbn [String.eqb].
  set (oid := (mongostore.objectIDs w (mongostore.minted w)
               mod primitive.ObjectID_modulus)%N) in *.
  assert (Hoid : primitive.ObjectIDFromHex
                   (sessions.ID (sessions.withID (primitive.Hex oid) s))
                 = inr oid).
  { cbn [sessions.ID sessions.withID]. rewrite ObjectIDFromHex_Hex.
    unfold oid. now rewrite N.Div0.mod_mod. }
  rewrite (upsert_sends m (sessions.withID (primitive.Hex oid) s)
             (mongostore.withMinted (S (mongostore.minted w)) w)
             oid enc t Hoid Hmod Henc).
  cbv zeta.
  cbn [mongostore.coll mongostore.withMinted sessions.Name sessions.ID
       sessions.withID sessions.OptionsPtr].
  rewrite Hup. cbn [fst snd]. rewrite Htok.
  cbn [mongostore.heap mongostore.after_query mongostore.after_calls
       mongostore.withColl mongostore.withTrace mongostore.withMinted].
  rewrite Ho. unfold mongostore.after_query, mongostore.after_calls. cbn.
  now rewrite <- app_assoc.
Qed.

Lemma Save_first_time_witness :
  mongostore.heap example.world !! 0%nat = Some example.defaults /\
  (0 <= sessions.MaxAge example.defaults)%Z /\
  securecookie.EncodeMultiValues "sid" ∅ [example.plain] = inr "gob" /\
  exists w',
    mongostore.Save (example.store [example.plain]) []
      (example.session "" ∅ 0%nat) example.world
    = Some ((example.session "000000000000000000000001" ∅ 0%nat, None), w') /\
    qmgo.docs (mongostore.coll w') !! 1%N
    = Some {| mongostore.ID := 1%N; mongostore.Data := "gob";
              mongostore.Modified := 1700000000000000000%Z |}.
Proof.
  split; [reflexivity|]. split; [discriminate|]. split; [reflexivity|].
  eexists. split.
  - apply (Save_first_time (example.store [example.plain]) []
             (example.session "" ∅ 0%nat) example.world example.defaults
             1700000000000000000%Z "gob" "000000000000000000000001").
    + reflexivity.
    + discriminate.
    + reflexivity.
    + left. split; reflexivity.
    + reflexivity.
    + reflexivity.
    + reflexivity.
  - reflexivity.
Defined.

(** X6.  A save can fail after the record is written: when the upsert succeeds
    and the encoding of the id fails, [Save] returns that error and writes
    no token, yet the collection is the one the upsert left. *)
Theorem Save_token_failure_keeps_record
    {Request C : Type} `{!qmgo.Collection C mongostore.Session}
    (m : @mongostore.MongoStore Request) (r : Request)
    (s : sessions.Session) (w : @mongostore.World C) (o : sessions.Options)
    (oid : primitive.ObjectID) (t : time.Time) (enc : string) (e : error)
    (c' : C) :
  mongostore.heap w !! sessions.OptionsPtr s = Some o ->
  (0 <= sessions.MaxAge o)%Z ->
  primitive.ObjectIDFromHex (sessions.ID s) = inr oid ->
  (sessions.Values s !! AString "modified" = None /\
   t = mongostore.clock w) \/
  sessions.Values s !! AString "modified" = Some (ATime t) ->
  securecookie.EncodeMultiValues (sessions.Name s) (sessions.Values s)
    (mongostore.Codecs m) = inr enc ->
  qmgo.UpsertId (mongostore.coll w) oid
    {| mongostore.ID := oid; mongostore.Data := enc;
       mongostore.Modified := t |} = (c', None) ->
  securecookie.EncodeMultiID (sessions.Name s) (sessions.ID s)
    (mongostore.Codecs m) = inl e ->
  mongostore.Save m r s w =
  Some ((s, Some e),
        mongostore.after_query w
          [mongostore.EvEncodeMulti (sessions.Name s);
           mongostore.EvUpsertId oid
             {| mongostore.ID := oid; mongostore.Data := enc;
                mongostore.Modified := t |};
           mongostore.EvEncodeMulti (sessions.Name s)] c').
Proof.
  intros Ho Hpos Hoid Hmod Henc Hup Htok.
  rewrite (Save_nonnegative_run m r s w o Ho Hpos), ensureID_run.
  rewrite (valid_id_not_empty _ _ Hoid).
  rewrite (upsert_sends m s w oid enc t Hoid Hmod Henc). cbv zeta.
  rewrite Hup. cbn [fst snd]. rewrite Htok.
  unfold mongostore.after_query, mongostore.after_calls. cbn.
  now rewrite <- app_assoc.
Qed.

Lemma Save_token_failure_keeps_record_witness :
  mongostore.heap example.world !! 0%nat = Some example.defaults /\
  (0 <= sessions.MaxAge example.defaults)%Z /\
  primitive.ObjectIDFromHex example.someID = inr example.someOID /\
  securecookie.EncodeMultiValues "sid" ∅ [example.idless] = inr "gob" /\
  qmgo.UpsertId example.emptyDB example.someOID example.savedDoc
  = (example.savedDB, None) /\
  securecookie.EncodeMultiID "sid" example.someID [example.idless]
  = inl (ErrMulti [example.invalid]) /\
  exists w',
    mongostore.Save (example.store [example.idless]) []
      (example.session example.someID ∅ 0%nat) example.world
    = Some ((example.session example.someID ∅ 0%nat,
             Some (ErrMulti [example.invalid])), w') /\
    mongostore.coll w' = example.savedDB.
Proof.
  split; [reflexivity|]. split; [discriminate|].
  repeat (split; [reflexivity|]).
  eexists. split.
  - apply (Save_token_failure_keeps_record
             (example.store [example.idless]) []
             (example.session example.someID ∅ 0%nat) example.world
             example.defaults example.someOID 1700000000000000000%Z "gob"
             (ErrMulti [example.invalid]) example.savedDB).
    + reflexivity.
    + discriminate.
    + reflexivity.
    + left. split; reflexivity.
    + reflexivity.
    + reflexivity.
    + reflexivity.
  - reflexivity.
Defined.

(** *** What a save leaves alone *)

Lemma Save_frame
    {Request C : Type} `{!qmgo.Collection C mongostore.Session}
    (m : @mongostore.MongoStore Request) (r : Request)
    (s : sessions.Session) (w : @mongostore.World C) (o : sessions.Options) :
  mongostore.heap w !! sessions.OptionsPtr s = Some o ->
  exists s' err w' evs,
    mongostore.Save m r s w = Some ((s', err), w') /\
    s' = sessions.withID (sessions.ID s') s /\
    mongostore.heap w' = mongostore.heap w /\
    mongostore.clock w' = mongostore.clock w /\
    mongostore.trace w' = mongostore.trace w ++ evs /\
    ((0 <= sessions.MaxAge o)%Z ->
     Forall (fun e => mongostore.isSaveCall e = true) evs).
Proof.
  intros Ho. destruct (Z.ltb_spec (sessions.MaxAge o) 0) as [Hneg|Hpos].
  - rewrite (Save_negative_run m r s w o Ho Hneg), delete_run.
    destruct (primitive.ObjectIDFromHex (sessions.ID s)) as [e|oid].
    { exists s, (Some ErrInvalidId), w, []. rewrite app_nil_r.
      repeat split; [now destruct s | lia]. }
    destruct (snd (qmgo.RemoveId (mongostore.coll w) oid)) as [e|].
    { eexists s, (Some e), _, _. split; [reflexivity|].
      repeat split; [now destruct s | lia]. }
    cbn [mongostore.heap mongostore.after_query mongostore.after_calls
         mongostore.withColl mongostore.withTrace].
    rewrite Ho. eexists s, None, _, [_; _]. split; [reflexivity|].
    repeat split; [now destruct s | cbn; now rewrite <- app_assoc | lia].
  - rewrite (Save_nonnegative_run m r s w o Ho Hpos), ensureID_run.
    set (s1w1 := if String.eqb (sessions.ID s) "" then _ else _).
    assert (Hfr : fst s1w1 = sessions.withID (sessions.ID (fst s1w1)) s /\
                  mongostore.heap (snd s1w1) = mongostore.heap w /\
                  mongostore.clock (snd s1w1) = mongostore.clock w /\
                  mongostore.trace (snd s1w1) = mongostore.trace w).
    { subst s1w1. destruct (String.eqb (sessions.ID s) ""); cbn;
        repeat split. now destruct s. }
    destruct s1w1 as [s1 w1]. cbn in Hfr.
    destruct Hfr as (Hs1 & Hheap & Hclock & Htr).
    assert (Hptr : sessions.OptionsPtr s1 = sessions.OptionsPtr s)
      by (rewrite Hs1; reflexivity).
    destruct (upsert_outcome_total m s1 w1) as (uerr & w2 & -> & Hout).
    assert (Hw2 : mongostore.heap w2 = mongostore.heap w1 /\
                  mongostore.clock w2 = mongostore.clock w1 /\
                  exists evs, mongostore.trace w2 = mongostore.trace w1 ++ evs
                              /\ Forall (fun e => mongostore.isSaveCall e
                                                  = true) evs).
    { destruct Hout; cbn; repeat split.
      - exists []. split; [now rewrite app_nil_r | constructor].
      - eexists. split; [reflexivity | repeat constructor].
      - eexists. split; [reflexivity | repeat constructor]. }
    destruct Hw2 as (Hh2 & Hc2 & evs2 & Ht2 & Hev2).
    rewrite Hheap in Hh2. rewrite Hclock in Hc2. rewrite Htr in Ht2.
    destruct uerr as [e|].
    { exists s1, (Some e), w2, evs2. repeat split; auto. }
    destruct (securecookie.EncodeMultiID _ _ _) as [e|tok].
    { eexists s1, (Some e), _, (evs2 ++ [mongostore.EvEncodeMulti
                                           (sessions.Name s1)]).
      split; [reflexivity|]. repeat split; try assumption.
      - cbn. rewrite Ht2. now rewrite <- app_assoc.
      - intros _. apply Forall_app. split; [assumption|repeat constructor]. }
    rewrite Hh2, Hptr, Ho.
    eexists s1, None, _,
      (evs2 ++ [mongostore.EvEncodeMulti (sessions.Name s1);
                mongostore.EvSetToken (sessions.Name s1) tok o]).
    split; [reflexivity|]. repeat split; try assumption.
    + cbn. rewrite Ht2. now rewrite <- app_assoc.
    + intros _. apply Forall_app. split; [assumption|repeat constructor].
Qed.

(** X7.  [Save] dereferences the session's options first: it panics exactly when
    that pointer is nil.  Whenever it returns, with or without an error, the
    only field of the session it may have changed is the id ([IsNew] in
    particular is left as it was), and the options records and the clock
    are untouched. *)
Theorem Save_changes_only_the_id
    {Request C : Type} `{!qmgo.Collection C mongostore.Session}
    (m : @mongostore.MongoStore Request) (r : Request)
    (s : sessions.Session) (w : @mongostore.World C) :
  (mongostore.Save m r s w = None <->
   mongostore.heap w !! sessions.OptionsPtr s = None) /\
  (forall s' err w',
     mongostore.Save m r s w = Some ((s', err), w') ->
     s' = sessions.withID (sessions.ID s') s /\
     mongostore.heap w' = mongostore.heap w /\
     mongostore.clock w' = mongostore.clock w).
Proof.
  destruct (mongostore.heap w !! sessions.OptionsPtr s) as [o|] eqn:Ho.
  - destruct (Save_frame m r s w o Ho)
      as (s1 & err1 & w1 & evs & Hrun & Hs & Hh & Hc & _).
    rewrite Hrun. split; [split; discriminate|].
    intros s' err w' [= <- <- <-]. repeat split; assumption.
  - assert (Hnone : mongostore.Save m r s w = None).
    { unfold mongostore.Save. unfold_monad. now rewrite Ho. }
    rewrite Hnone. split; [split; reflexivity|]. discriminate.
Qed.

Lemma Save_changes_only_the_id_witness :
  exists s' err w',
    mongostore.Save (example.store [example.plain]) []
      (example.session "" ∅ 0%nat) example.world = Some ((s', err), w') /\
    sessions.IsNew s' = false /\
    mongostore.heap w' = mongostore.heap example.world.
Proof.
  eexists _, _, _. split; [vm_compute; reflexivity|].
  split; [reflexivity|].
  eapply (proj2 (Save_changes_only_the_id
                   (example.store [example.plain]) []
                   (example.session "" ∅ 0%nat) example.world)).
  vm_compute. reflexivity.
Defined.

(** X8.  On the upsert path [Save] never removes and never looks up: every call
    it makes is an encoding, an upsert or a token write. *)
Theorem Save_nonnegative_never_removes
    {Request C : Type} `{!qmgo.Collection C mongostore.Session}
    (m : @mongostore.MongoStore Request) (r : Request)
    (s : sessions.Session) (w : @mongostore.World C) (o : sessions.Options) :
  mongostore.heap w !! sessions.OptionsPtr s = Some o ->
  (0 <= sessions.MaxAge o)%Z ->
  exists s' err w' evs,
    mongostore.Save m r s w = Some ((s', err), w') /\
    mongostore.trace w' = mongostore.trace w ++ evs /\
    Forall (fun e => mongostore.isSaveCall e = true) evs.
Proof.
  intros Ho Hpos.
  destruct (Save_frame m r s w o Ho)
    as (s' & err & w' & evs & Hrun & _ & _ & _ & Ht & Hev).
  exists s', err, w', evs. split; [exact Hrun|]. split; [exact Ht|].
  now apply Hev.
Qed.

Lemma Save_nonnegative_never_removes_witness :
  mongostore.heap example.savedWorld !! 0%nat = Some example.defaults /\
  (0 <= sessions.MaxAge example.defaults)%Z /\
  exists s' err w' evs,
    mongostore.Save (example.store [example.plain]) []
      (example.session example.someID ∅ 0%nat) example.savedWorld
    = Some ((s', err), w') /\
    mongostore.trace w' = mongostore.trace example.savedWorld ++ evs /\
    Forall (fun e => mongostore.isSaveCall e = true) evs.
Proof.
  split; [reflexivity|]. split; [discriminate|].
  apply (Save_nonnegative_never_removes
           (example.store [example.plain]) []
           (example.session example.someID ∅ 0%nat) example.savedWorld
           example.defaults).
  - reflexivity.
  - discriminate.
Defined.

(** *** Saving and looking up, composed *)

(** X9.  Round trip.  Save a session that has an id, then look it up with a
    request that carries the token just written: provided the codec decodes
    what it encoded (the token back to the id, the payload back to the
    values) and the collection finds the record it accepted, [New] returns
    no error and a session that is not new, with the saved id and the saved
    values. *)
Theorem Save_then_New_round_trip
    {Request C : Type} `{!qmgo.Collection C mongostore.Session}
    (m : @mongostore.MongoStore Request) (r r' : Request)
    (s : sessions.Session) (w : @mongostore.World C)
    (o defaults : sessions.Options) (oid : primitive.ObjectID)
    (t : time.Time) (enc tok : string) (c' : C) :
  let doc := {| mongostore.ID := oid; mongostore.Data := enc;
                mongostore.Modified := t |} in
  mongostore.heap w !! sessions.OptionsPtr s = Some o ->
  (0 <= sessions.MaxAge o)%Z ->
  mongostore.heap w !! mongostore.Options m = Some defaults ->
  primitive.ObjectIDFromHex (sessions.ID s) = inr oid ->
  (sessions.Values s !! AString "modified" = None /\
   t = mongostore.clock w) \/
  sessions.Values s !! AString "modified" = Some (ATime t) ->
  securecookie.EncodeMultiValues (sessions.Name s) (sessions.Values s)
    (mongostore.Codecs m) = inr enc ->
  qmgo.UpsertId (mongostore.coll w) oid doc = (c', None) ->
  securecookie.EncodeMultiID (sessions.Name s) (sessions.ID s)
    (mongostore.Codecs m) = inr tok ->
  mongostore.GetToken (mongostore.Token m) r' (sessions.Name s) = inr tok ->
  securecookie.DecodeMultiID (sessions.Name s) tok (mongostore.Codecs m)
  = inr (sessions.ID s) ->
  qmgo.FindOne c' oid = inr doc ->
  securecookie.DecodeMultiValues (sessions.Name s) enc (mongostore.Codecs m)
  = inr (sessions.Values s) ->
  exists w1 s2 w2,
    mongostore.Save m r s w = Some ((s, None), w1) /\
    mongostore.New m r' (sessions.Name s) w1 = Some ((s2, None), w2) /\
    sessions.IsNew s2 = false /\
    sessions.ID s2 = sessions.ID s /\
    sessions.Values s2 = sessions.Values s.
Proof.
  cbv zeta.
  intros Ho Hpos Hdef Hoid Hmod Henc Hup Htok Hget Hdec Hfind Hpay.
  rewrite (Save_nonnegative_run m r s w o Ho Hpos), ensureID_run.
  rewrite (valid_id_not_empty _ _ Hoid).
  rewrite (upsert_sends m s w oid enc t Hoid Hmod Henc). cbv zeta.
  rewrite Hup. cbn [fst snd]. rewrite Htok.
  cbn [mongostore.heap mongostore.after_query mongostore.after_calls
       mongostore.withColl mongostore.withTrace].
  rewrite Ho.
  match goal with
  | |- exists w1 s2 w2, Some (_, ?w0) = _ /\ _ => set (w1 := w0)
  end.
  assert (Hdef1 : mongostore.heap w1 !! mongostore.Options m = Some defaults)
    by exact Hdef.
  exists w1.
  rewrite (New_run m r' (sessions.Name s) w1 defaults Hdef1). cbv zeta.
  rewrite Hget, Hdec, load_run.
  cbn [sessions.ID sessions.withID sessions.Name].
  rewrite Hoid.
  change (mongostore.coll
            (mongostore.after_calls
               (mongostore.after_calls
                  (mongostore.withHeap
                     (mongostore.heap w1
                      ++ [sessions.zeroOptions;
                          mongostore.copyOptions defaults]) w1)
                  [mongostore.EvGetToken (sessions.Name s)])
               [mongostore.EvDecodeMulti (sessions.Name s) tok]))
    with c'.
  rewrite Hfind. cbv zeta. cbn [mongostore.Data]. rewrite Hpay.
  eexists _, _. split; [reflexivity|]. split; [reflexivity|].
  repeat split.
Qed.

Lemma Save_then_New_round_trip_witness :
  mongostore.heap example.world !! 0%nat = Some example.defaults /\
  (0 <= sessions.MaxAge example.defaults)%Z /\
  primitive.ObjectIDFromHex example.someID = inr example.someOID /\
  qmgo.UpsertId example.emptyDB example.someOID example.savedDoc
  = (example.savedDB, None) /\
  example.cookie [("sid", example.someID)] "sid" = inr example.someID /\
  qmgo.FindOne example.savedDB example.someOID = inr example.savedDoc /\
  exists w1 s2 w2,
    mongostore.Save (example.store [example.plain]) []
      (example.session example.someID ∅ 0%nat) example.world
    = Some ((example.session example.someID ∅ 0%nat, None), w1) /\
    mongostore.New (example.store [example.plain])
      [("sid", example.someID)] "sid" w1 = Some ((s2, None), w2) /\
    sessions.IsNew s2 = false /\
    sessions.ID s2 = example.someID /\
    sessions.Values s2 = ∅.
Proof.
  split; [reflexivity|]. split; [discriminate|].
  repeat (split; [reflexivity|]).
  apply (Save_then_New_round_trip
           (example.store [example.plain]) [] [("sid", example.someID)]
           (example.session example.someID ∅ 0%nat) example.world
           example.defaults example.defaults example.someOID
           1700000000000000000%Z "gob" example.someID example.savedDB);
    try reflexivity.
  - discriminate.
  - left. split; reflexivity.
Defined.

(** X10.  Termination.  Save a session with a negative max age: when the
    collection removes the record, [Save] returns no error after the removal
    and the clearing write.  A later request that still carries the old
    token then gets a new, empty session and no error, the find having
    failed. *)
Theorem Save_terminate_then_New
    {Request C : Type} `{!qmgo.Collection C mongostore.Session}
    (m : @mongostore.MongoStore Request) (r r' : Request)
    (s : sessions.Session) (w : @mongostore.World C)
    (o defaults : sessions.Options) (oid : primitive.ObjectID)
    (cook : string) (e : error) (c' : C) :
  mongostore.heap w !! sessions.OptionsPtr s = Some o ->
  (sessions.MaxAge o < 0)%Z ->
  mongostore.heap w !! mongostore.Options m = Some defaults ->
  primitive.ObjectIDFromHex (sessions.ID s) = inr oid ->
  qmgo.RemoveId (mongostore.coll w) oid = (c', None) ->
  mongostore.GetToken (mongostore.Token m) r' (sessions.Name s) = inr cook ->
  securecookie.DecodeMultiID (sessions.Name s) cook (mongostore.Codecs m)
  = inr (sessions.ID s) ->
  qmgo.FindOne c' oid = inl e ->
  exists w1 s2 w2,
    mongostore.Save m r s w = Some ((s, None), w1) /\
    mongostore.coll w1 = c' /\
    mongostore.trace w1 =
      mongostore.trace w
      ++ [mongostore.EvRemoveId oid;
          mongostore.EvSetToken (sessions.Name s) "" o] /\
    mongostore.New m r' (sessions.Name s) w1 = Some ((s2, None), w2) /\
    sessions.IsNew s2 = true /\
    sessions.Values s2 = ∅.
Proof.
  intros Ho Hneg Hdef Hoid Hrem Hget Hdec Hfind.
  rewrite (Save_negative_run m r s w o Ho Hneg), delete_run, Hoid, Hrem.
  cbn [fst snd mongostore.heap mongostore.after_query mongostore.after_calls
       mongostore.withColl mongostore.withTrace].
  rewrite Ho.
  match goal with
  | |- exists w1 s2 w2, Some (_, ?w0) = _ /\ _ => set (w1 := w0)
  end.
  assert (Hdef1 : mongostore.heap w1 !! mongostore.Options m = Some defaults)
    by exact Hdef.
  exists w1.
  rewrite (New_run m r' (sessions.Name s) w1 defaults Hdef1). cbv zeta.
  rewrite Hget, Hdec, load_run.
  cbn [sessions.ID sessions.withID sessions.Name].
  rewrite Hoid.
  change (mongostore.coll
            (mongostore.after_calls
               (mongostore.after_calls
                  (mongostore.withHeap
                     (mongostore.heap w1
                      ++ [sessions.zeroOptions;
                          mongostore.copyOptions defaults]) w1)
                  [mongostore.EvGetToken (sessions.Name s)])
               [mongostore.EvDecodeMulti (sessions.Name s) cook]))
    with c'.
  rewrite Hfind.
  eexists _, _. split; [reflexivity|]. split; [reflexivity|].
  split; [subst w1; cbn; now rewrite <- app_assoc|].
  split; [reflexivity|]. split; reflexivity.
Qed.

Lemma Save_terminate_then_New_witness :
  mongostore.heap example.savedWorld !! 1%nat = Some example.expired /\
  (sessions.MaxAge example.expired < 0)%Z /\
  primitive.ObjectIDFromHex example.someID = inr example.someOID /\
  qmgo.RemoveId example.savedDB example.someOID = (example.emptyDB, None) /\
  qmgo.FindOne example.emptyDB example.someOID = inl ErrNoSuchDocuments /\
  exists w1 s2 w2,
    mongostore.Save (example.store [example.plain]) []
      (example.session example.someID ∅ 1%nat) example.savedWorld
    = Some ((example.session example.someID ∅ 1%nat, None), w1) /\
    mongostore.New (example.store [example.plain])
      [("sid", example.someID)] "sid" w1 = Some ((s2, None), w2) /\
    sessions.IsNew s2 = true.
Proof.
  split; [reflexivity|]. split; [reflexivity|].
  repeat (split; [reflexivity|]).
  destruct (Save_terminate_then_New
              (example.store [example.plain]) [] [("sid", example.someID)]
              (example.session example.someID ∅ 1%nat) example.savedWorld
              example.expired example.defaults example.someOID
              example.someID ErrNoSuchDocuments example.emptyDB)
    as (w1 & s2 & w2 & Hsave & _ & _ & Hnew & Hfresh & _);
    try reflexivity.
  exists w1, s2, w2. repeat split; assumption.
Defined.

(** X11.  A token that outlives its record.  When the token decodes to an id of
    valid format whose record the collection does not find, [New] returns a
    new session that already carries that id; a [Save] of it on the upsert
    path generates no ObjectID and keeps the id, and when the values encode
    the record is upserted under the id the token carried. *)
Theorem New_then_Save_reuses_token_id
    {Request C : Type} `{!qmgo.Collection C mongostore.Session}
    (m : @mongostore.MongoStore Request) (r : Request) (name : string)
    (w : @mongostore.World C) (defaults : sessions.Options)
    (cook id : string) (oid : primitive.ObjectID) (e : error) :
  mongostore.heap w !! mongostore.Options m = Some defaults ->
  (0 <= sessions.MaxAge defaults)%Z ->
  mongostore.GetToken (mongostore.Token m) r name = inr cook ->
  securecookie.DecodeMultiID name cook (mongostore.Codecs m) = inr id ->
  primitive.ObjectIDFromHex id = inr oid ->
  qmgo.FindOne (mongostore.coll w) oid = inl e ->
  exists s w1 err w2,
    mongostore.New m r name w = Some ((s, None), w1) /\
    sessions.IsNew s = true /\
    sessions.ID s = id /\
    mongostore.Save m r s w1 = Some ((s, err), w2) /\
    mongostore.minted w2 = mongostore.minted w /\
    (forall enc,
       securecookie.EncodeMultiValues name ∅ (mongostore.Codecs m)
       = inr enc ->
       In (mongostore.EvUpsertId oid
             {| mongostore.ID := oid; mongostore.Data := enc;
                mongostore.Modified := mongostore.clock w |})
          (mongostore.trace w2)).
Proof.
  intros Hdef Hpos Hget Hdec Hoid Hfind.
  rewrite (New_run m r name w defaults Hdef). cbv zeta.
  rewrite Hget, Hdec, load_run.
  cbn [sessions.ID sessions.withID sessions.Name].
  rewrite Hoid.
  cbn [mongostore.coll mongostore.after_calls mongostore.withTrace
       mongostore.withHeap mongostore.withColl].
  rewrite Hfind.
  match goal with
  | |- exists s w1 err w2, Some ((?s0, None), ?w0) = _ /\ _ =>
      set (s1 := s0); set (w1 := w0)
  end.
  assert (Ho : mongostore.heap w1 !! sessions.OptionsPtr s1
               = Some (mongostore.copyOptions defaults)).
  { subst s1 w1. cbn. rewrite lookup_app_r by lia.
    now replace (S (length (mongostore.heap w)) - length (mongostore.heap w))
      with 1 by lia. }
  assert (Hid1 : primitive.ObjectIDFromHex (sessions.ID s1) = inr oid)
    by exact Hoid.
  assert (Hmod : sessions.Values s1 !! AString "modified" = None)
    by reflexivity.
  exists s1, w1.
  rewrite (Save_nonnegative_run m r s1 w1 _ Ho Hpos), ensureID_run.
  rewrite (valid_id_not_empty _ _ Hid1).
  assert (Hvalid : primitive.IsValidObjectID (sessions.ID s1) = true).
  { unfold primitive.IsValidObjectID. now rewrite Hid1. }
  rewrite (upsert_valid_run m s1 w1 Hvalid), Hmod.
  rewrite (upsertAt_run m s1 w1 _ oid Hid1).
  change (sessions.Name s1) with name.
  change (sessions.Values s1) with (∅ : gmap any any).
  change (mongostore.clock w1) with (mongostore.clock w).
  destruct (securecookie.EncodeMultiValues name ∅ (mongostore.Codecs m))
    as [e1|enc1].
  { eexists _, _. repeat split; try reflexivity. discriminate. }
  cbv zeta.
  set (doc := {| mongostore.ID := oid; mongostore.Data := enc1;
                 mongostore.Modified := mongostore.clock w |}).
  destruct (qmgo.UpsertId (mongostore.coll w1) oid doc) as [c2 [e2|]].
  { eexists _, _. split; [reflexivity|]. repeat split.
    intros enc [= <-]. cbn. rewrite in_app_iff. right. cbn. tauto. }
  cbn [fst snd].
  change (sessions.ID s1) with id.
  destruct (securecookie.EncodeMultiID name id (mongostore.Codecs m))
    as [e3|tok].
  { eexists _, _. split; [reflexivity|]. repeat split.
    intros enc [= <-]. cbn. rewrite !in_app_iff. left. right. cbn. tauto. }
  cbn [mongostore.heap mongostore.after_query mongostore.after_calls
       mongostore.withColl mongostore.withTrace].
  rewrite Ho.
  eexists _, _. split; [reflexivity|]. repeat split.
  intros enc [= <-]. cbn. rewrite !in_app_iff. left. right. cbn. tauto.
Qed.

Lemma New_then_Save_reuses_token_id_witness :
  mongostore.heap example.world !! 0%nat = Some example.defaults /\
  (0 <= sessions.MaxAge example.defaults)%Z /\
  example.cookie [("sid", example.someID)] "sid" = inr example.someID /\
  primitive.ObjectIDFromHex example.someID = inr example.someOID /\
  qmgo.FindOne example.emptyDB example.someOID = inl ErrNoSuchDocuments /\
  exists s w1 err w2,
    mongostore.New (example.store [example.plain])
      [("sid", example.someID)] "sid" example.world = Some ((s, None), w1) /\
    sessions.IsNew s = true /\
    sessions.ID s = example.someID /\
    mongostore.Save (example.store [example.plain])
      [("sid", example.someID)] s w1 = Some ((s, err), w2) /\
    mongostore.minted w2 = 0%nat.
Proof.
  split; [reflexivity|]. split; [discriminate|].
  repeat (split; [reflexivity|]).
  destruct (New_then_Save_reuses_token_id
              (example.store [example.plain]) [("sid", example.someID)]
              "sid" example.world example.defaults example.someID
              example.someID example.someOID ErrNoSuchDocuments)
    as (s & w1 & err & w2 & Hnew & Hfresh & Hid & Hsave & Hminted & _);
    try reflexivity; try discriminate.
  exists s, w1, err, w2. repeat split; assumption.
Defined.

(** *** The store's max age *)

Lemma MaxAge_run
    {Request C : Type} `{!qmgo.Collection C mongostore.Session}
    (m : @mongostore.MongoStore Request) (age : Z)
    (w : @mongostore.World C) (o : sessions.Options) :
  mongostore.heap w !! mongostore.Options m = Some o ->
  mongostore.MaxAge m age w =
  Some ({| mongostore.Codecs :=
             map (fun codec => securecookie.MaxAge codec age)
                 (mongostore.Codecs m);
           mongostore.Options := mongostore.Options m;
           mongostore.Token := mongostore.Token m |},
        mongostore.withHeap
          (<[mongostore.Options m := sessions.withMaxAge age o]>
             (mongostore.heap w)) w).
Proof.
  intros Ho. unfold mongostore.MaxAge. unfold_monad. now rewrite Ho, Ho.
Qed.

(** X12.  [MaxAge] keeps the store's options and its codecs in step: the store's
    options record gets the new max age and keeps its other fields, every
    SecureCookie among the codecs gets [int64(age)], codecs of another kind
    and the order of the codecs are kept.  No other options record
    changes, and no collaborator is called. *)
Theorem MaxAge_sets_options_and_codecs
    {Request C : Type} `{!qmgo.Collection C mongostore.Session}
    (m : @mongostore.MongoStore Request) (age : Z)
    (w : @mongostore.World C) (o : sessions.Options) :
  mongostore.heap w !! mongostore.Options m = Some o ->
  exists m' w',
    mongostore.MaxAge m age w = Some (m', w') /\
    mongostore.Options m' = mongostore.Options m /\
    mongostore.Token m' = mongostore.Token m /\
    mongostore.heap w' !! mongostore.Options m
    = Some (sessions.withMaxAge age o) /\
    (forall p, p <> mongostore.Options m ->
               mongostore.heap w' !! p = mongostore.heap w !! p) /\
    length (mongostore.Codecs m') = length (mongostore.Codecs m) /\
    (forall i a impl,
       mongostore.Codecs m !! i = Some (securecookie.SecureCookie a impl) ->
       mongostore.Codecs m' !! i
       = Some (securecookie.SecureCookie (int64 age) impl)) /\
    (forall i impl,
       mongostore.Codecs m !! i = Some (securecookie.OtherCodec impl) ->
       mongostore.Codecs m' !! i = Some (securecookie.OtherCodec impl)) /\
    mongostore.coll w' = mongostore.coll w /\
    mongostore.trace w' = mongostore.trace w.
Proof.
  intros Ho. rewrite (MaxAge_run m age w o Ho).
  eexists _, _. split; [reflexivity|]. cbn.
  pose proof (lookup_lt_Some _ _ _ Ho) as Hlt.
  split; [reflexivity|]. split; [reflexivity|].
  split; [now apply list_lookup_insert_eq|].
  split; [intros p Hp; now apply list_lookup_insert_ne|].
  split; [apply length_map|].
  change (map (fun codec => securecookie.MaxAge codec age)
              (mongostore.Codecs m))
    with ((fun codec => securecookie.MaxAge codec age)
          <$> mongostore.Codecs m).
  split; [intros i a impl Hi; now rewrite list_lookup_fmap, Hi|].
  split; [intros i impl Hi; now rewrite list_lookup_fmap, Hi|].
  split; reflexivity.
Qed.

Lemma MaxAge_sets_options_and_codecs_witness :
  mongostore.heap example.world !! 0%nat = Some example.defaults /\
  exists m' w',
    mongostore.MaxAge (example.store [example.timed 3600; example.plain])
      60 example.world = Some (m', w') /\
    mongostore.heap w' !! 0%nat
    = Some (sessions.withMaxAge 60 example.defaults) /\
    mongostore.Codecs m' !! 0%nat = Some (example.timed 60) /\
    mongostore.Codecs m' !! 1%nat = Some example.plain.
Proof.
  split; [reflexivity|].
  destruct (MaxAge_sets_options_and_codecs
              (example.store [example.timed 3600; example.plain]) 60
              example.world example.defaults eq_refl)
    as (m' & w' & Hrun & _ & _ & Hopt & _ & _ & Hsc & Hother & _).
  exists m', w'. split; [exact Hrun|]. split; [exact Hopt|]. split.
  - exact (Hsc 0%nat 3600%Z _ eq_refl).
  - exact (Hother 1%nat _ eq_refl).
Defined.

(** X13.  A session created after [MaxAge] gets the new max age, with the other
    defaults of the store. *)
Theorem MaxAge_then_New
    {Request C : Type} `{!qmgo.Collection C mongostore.Session}
    (m : @mongostore.MongoStore Request) (age : Z) (r : Request)
    (name : string) (w : @mongostore.World C) (o : sessions.Options) :
  mongostore.heap w !! mongostore.Options m = Some o ->
  exists m' w1 s err w2,
    mongostore.MaxAge m age w = Some (m', w1) /\
    mongostore.New m' r name w1 = Some ((s, err), w2) /\
    mongostore.heap w2 !! sessions.OptionsPtr s
    = Some {| sessions.Path := sessions.Path o;
              sessions.Domain := sessions.Domain o;
              sessions.MaxAge := age;
              sessions.Secure := sessions.Secure o;
              sessions.HttpOnly := sessions.HttpOnly o;
              sessions.SameSite := 0 |}.
Proof.
  intros Ho. rewrite (MaxAge_run m age w o Ho).
  pose proof (lookup_lt_Some _ _ _ Ho) as Hlt.
  eexists _, _.
  match goal with
  | |- exists s err w2, Some (?m0, ?w0) = _ /\ _ =>
      destruct (New_heap m0 r name w0 (sessions.withMaxAge age o))
        as (s & err & w2 & Hrun & Hptr & Hheap)
  end.
  { cbn. now apply list_lookup_insert_eq. }
  exists s, err, w2. split; [reflexivity|]. split; [exact Hrun|].
  rewrite Hheap, Hptr. rewrite lookup_app_r by lia.
  match goal with
  | |- _ !! ?i = _ => replace i with 1 by lia
  end.
  reflexivity.
Qed.

Lemma MaxAge_then_New_witness :
  mongostore.heap example.world !! 0%nat = Some example.defaults /\
  exists m' w1 s err w2 own,
    mongostore.MaxAge (example.store [example.plain]) 60 example.world
    = Some (m', w1) /\
    mongostore.New m' [] "sid" w1 = Some ((s, err), w2) /\
    mongostore.heap w2 !! sessions.OptionsPtr s = Some own /\
    sessions.MaxAge own = 60%Z.
Proof.
  split; [reflexivity|].
  destruct (MaxAge_then_New (example.store [example.plain]) 60 []
              "sid" example.world example.defaults eq_refl)
    as (m' & w1 & s & err & w2 & Hage & Hnew & Hown).
  exists m', w1, s, err, w2. eexists.
  split; [exact Hage|]. split; [exact Hnew|]. split; [exact Hown|].
  reflexivity.
Defined.

(** X14.  A session created before [MaxAge] keeps the max age it was created
    with: its options record is its own. *)
Theorem New_then_MaxAge
    {Request C : Type} `{!qmgo.Collection C mongostore.Session}
    (m : @mongostore.MongoStore Request) (age : Z) (r : Request)
    (name : string) (w : @mongostore.World C) (o : sessions.Options) :
  mongostore.heap w !! mongostore.Options m = Some o ->
  exists s err w1 m' w2,
    mongostore.New m r name w = Some ((s, err), w1) /\
    mongostore.MaxAge m age w1 = Some (m', w2) /\
    mongostore.heap w2 !! sessions.OptionsPtr s
    = Some (mongostore.copyOptions o) /\
    mongostore.heap w2 !! mongostore.Options m
    = Some (sessions.withMaxAge age o).
Proof.
  intros Ho.
  destruct (New_heap m r name w o Ho) as (s & err & w1 & Hrun & Hptr & Hheap).
  pose proof (lookup_lt_Some _ _ _ Ho) as Hlt.
  assert (Ho1 : mongostore.heap w1 !! mongostore.Options m = Some o).
  { rewrite Hheap. now apply lookup_app_l_Some. }
  exists s, err, w1. rewrite (MaxAge_run m age w1 o Ho1).
  eexists _, _. split; [exact Hrun|]. split; [reflexivity|]. cbn.
  split.
  - rewrite list_lookup_insert_ne by lia.
    rewrite Hheap, Hptr. rewrite lookup_app_r by lia.
    match goal with
    | |- _ !! ?i = _ => replace i with 1 by lia
    end.
    reflexivity.
  - apply list_lookup_insert_eq. now apply lookup_lt_Some in Ho1.
Qed.

Lemma New_then_MaxAge_witness :
  mongostore.heap example.world !! 0%nat = Some example.defaults /\
  exists s err w1 m' w2 own,
    mongostore.New (example.store [example.plain]) [] "sid" example.world
    = Some ((s, err), w1) /\
    mongostore.MaxAge (example.store [example.plain]) 60 w1
    = Some (m', w2) /\
    mongostore.heap w2 !! sessions.OptionsPtr s = Some own /\
    sessions.MaxAge own = 3600%Z.
Proof.
  split; [reflexivity|].
  destruct (New_then_MaxAge (example.store [example.plain]) 60 []
              "sid" example.world example.defaults eq_refl)
    as (s & err & w1 & m' & w2 & Hnew & Hage & Hown & _).
  exists s, err, w1, m', w2. eexists.
  split; [exact Hnew|]. split; [exact Hage|]. split; [exact Hown|].
  reflexivity.
Defined.

(** *** Constructing the store *)

Lemma NewMongoStore_run
    {Request C : Type} `{!qmgo.Collection C mongostore.Session}
    (CookieToken : @mongostore.TokenGetSeter Request)
    (CodecsFromPairs : list (list Byte.byte) -> list securecookie.Codec)
    (maxAge : Z) (ensureTTL : bool) (keyPairs : list (list Byte.byte))
    (w : @mongostore.World C) :
  let options :=
    {| sessions.Path := "/"; sessions.Domain := "";
       sessions.MaxAge := maxAge; sessions.Secure := false;
       sessions.HttpOnly := false; sessions.SameSite := 0 |} in
  let store :=
    {| mongostore.Codecs :=
         map (fun codec => securecookie.MaxAge codec maxAge)
             (CodecsFromPairs keyPairs);
       mongostore.Options := length (mongostore.heap w);
       mongostore.Token := CookieToken |} in
  let w0 := mongostore.withHeap (mongostore.heap w ++ [options]) w in
  let created :=
    qmgo.CreateIndexes (mongostore.coll w) (mongostore.ttlIndex maxAge) in
  mongostore.NewMongoStore CookieToken CodecsFromPairs maxAge ensureTTL
    keyPairs w =
  if ensureTTL then
    Some (match snd created with
          | Some _ => None
          | None => Some store
          end,
          mongostore.after_query w0
            [mongostore.EvCreateIndexes (mongostore.ttlIndex maxAge)]
            (fst created))
  else Some (Some store, w0).
Proof.
  cbv zeta.
  unfold mongostore.NewMongoStore, mongostore.MaxAge. unfold_monad. cbn.
  rewrite (list_lookup_middle (mongostore.heap w) [] _ _ eq_refl). cbn.
  rewrite (list_lookup_middle (mongostore.heap w) [] _ _ eq_refl). cbn.
  rewrite insert_app_r_alt by lia. rewrite Nat.sub_diag. cbn.
  destruct ensureTTL; [|reflexivity].
  unfold mongostore.after_query, mongostore.after_calls,
    mongostore.withColl, mongostore.withTrace, mongostore.withHeap. cbn.
  destruct (qmgo.CreateIndexes (mongostore.coll w)
              (mongostore.ttlIndex maxAge)) as [c [e|]]; reflexivity.
Qed.

(** X15.  [NewMongoStore] returns [nil] exactly when the index is asked for and
    its creation fails.  Without [ensureTTL] it makes no call at all and
    leaves the collection alone.  In every case it allocates one options
    record, with path ["/"] and the given max age; a store that is returned
    points to that record, uses the cookie transport, and holds the codecs
    made from the key pairs with their max age set. *)
Theorem NewMongoStore_result
    {Request C : Type} `{!qmgo.Collection C mongostore.Session}
    (CookieToken : @mongostore.TokenGetSeter Request)
    (CodecsFromPairs : list (list Byte.byte) -> list securecookie.Codec)
    (maxAge : Z) (ensureTTL : bool) (keyPairs : list (list Byte.byte))
    (w : @mongostore.World C) :
  exists result w',
    mongostore.NewMongoStore CookieToken CodecsFromPairs maxAge ensureTTL
      keyPairs w = Some (result, w') /\
    (result = None <->
     ensureTTL = true /\
     snd (qmgo.CreateIndexes (mongostore.coll w)
            (mongostore.ttlIndex maxAge)) <> None) /\
    (ensureTTL = false ->
     mongostore.trace w' = mongostore.trace w /\
     mongostore.coll w' = mongostore.coll w) /\
    mongostore.heap w' =
      mongostore.heap w
      ++ [ {| sessions.Path := "/"; sessions.Domain := "";
              sessions.MaxAge := maxAge; sessions.Secure := false;
              sessions.HttpOnly := false; sessions.SameSite := 0 |} ] /\
    (forall store,
       result = Some store ->
       mongostore.Options store = length (mongostore.heap w) /\
       mongostore.Token store = CookieToken /\
       mongostore.Codecs store =
         map (fun codec => securecookie.MaxAge codec maxAge)
             (CodecsFromPairs keyPairs)).
Proof.
  rewrite NewMongoStore_run. cbv zeta.
  destruct ensureTTL.
  - destruct (snd (qmgo.CreateIndexes (mongostore.coll w)
                     (mongostore.ttlIndex maxAge))) as [e|].
    + eexists _, _. split; [reflexivity|].
      split; [split; [intros _; split; [reflexivity|discriminate]
                     |reflexivity]|].
      split; [discriminate|]. split; [reflexivity|]. discriminate.
    + eexists _, _. split; [reflexivity|].
      split; [split; [discriminate|intros [_ Hne]; now destruct Hne]|].
      split; [discriminate|]. split; [reflexivity|].
      intros store [= <-]. repeat split.
  - eexists _, _. split; [reflexivity|].
    split; [split; [discriminate|intros [Hne _]; discriminate Hne]|].
    split; [intros _; split; reflexivity|]. split; [reflexivity|].
    intros store [= <-]. repeat split.
Qed.

(** X16.  The store [NewMongoStore] returns can be used at once: provided the
    index, if asked for, is created, [New] on the returned store returns a
    session whose own options have path ["/"], the constructor's max age and
    nothing else set. *)
Theorem NewMongoStore_then_New
    {Request C : Type} `{!qmgo.Collection C mongostore.Session}
    (CookieToken : @mongostore.TokenGetSeter Request)
    (CodecsFromPairs : list (list Byte.byte) -> list securecookie.Codec)
    (maxAge : Z) (ensureTTL : bool) (keyPairs : list (list Byte.byte))
    (r : Request) (name : string) (w : @mongostore.World C) :
  (ensureTTL = true ->
   snd (qmgo.CreateIndexes (mongostore.coll w) (mongostore.ttlIndex maxAge))
   = None) ->
  exists store w1 s err w2,
    mongostore.NewMongoStore CookieToken CodecsFromPairs maxAge ensureTTL
      keyPairs w = Some (Some store, w1) /\
    mongostore.New store r name w1 = Some ((s, err), w2) /\
    mongostore.heap w2 !! sessions.OptionsPtr s
    = Some {| sessions.Path := "/"; sessions.Domain := "";
              sessions.MaxAge := maxAge; sessions.Secure := false;
              sessions.HttpOnly := false; sessions.SameSite := 0 |}.
Proof.
  intros Hidx. rewrite NewMongoStore_run. cbv zeta.
  set (options := {| sessions.Path := "/"; sessions.Domain := "";
                     sessions.MaxAge := maxAge; sessions.Secure := false;
                     sessions.HttpOnly := false; sessions.SameSite := 0 |}).
  set (store := {| mongostore.Codecs := _; mongostore.Options := _;
                   mongostore.Token := CookieToken |}).
  assert (Hgo : forall w1 : @mongostore.World C,
             mongostore.heap w1 = mongostore.heap w ++ [options] ->
             exists s err w2,
               mongostore.New store r name w1 = Some ((s, err), w2) /\
               mongostore.heap w2 !! sessions.OptionsPtr s = Some options).
  { intros w1 Hheap.
    assert (Hdef : mongostore.heap w1 !! mongostore.Options store
                   = Some options).
    { rewrite Hheap. now apply list_lookup_middle. }
    destruct (New_heap store r name w1 options Hdef)
      as (s & err & w2 & Hrun & Hptr & Hh2).
    exists s, err, w2. split; [exact Hrun|].
    rewrite Hh2, Hptr. rewrite lookup_app_r by lia.
    match goal with
    | |- _ !! ?i = _ => replace i with 1 by lia
    end.
    reflexivity. }
  destruct ensureTTL.
  - rewrite (Hidx eq_refl).
    match goal with
    | |- exists st w1 s err w2, Some (_, ?w0) = _ /\ _ =>
        destruct (Hgo w0 eq_refl) as (s & err & w2 & Hrun & Hown)
    end.
    eexists store, _, s, err, w2. split; [reflexivity|].
    split; [exact Hrun | exact Hown].
  - match goal with
    | |- exists st w1 s err w2, Some (_, ?w0) = _ /\ _ =>
        destruct (Hgo w0 eq_refl) as (s & err & w2 & Hrun & Hown)
    end.
    eexists store, _, s, err, w2. split; [reflexivity|].
    split; [exact Hrun | exact Hown].
Qed.

Lemma NewMongoStore_then_New_witness :
  snd (qmgo.CreateIndexes example.emptyDB (mongostore.ttlIndex 60)) = None /\
  exists store w1 s err w2 own,
    mongostore.NewMongoStore example.cookies (fun _ => [example.timed 0])
      60 true [] example.world = Some (Some store, w1) /\
    mongostore.New store [] "sid" w1 = Some ((s, err), w2) /\
    mongostore.heap w2 !! sessions.OptionsPtr s = Some own /\
    sessions.Path own = "/" /\ sessions.MaxAge own = 60%Z.
Proof.
  split; [reflexivity|].
  destruct (NewMongoStore_then_New example.cookies
              (fun _ => [example.timed 0]) 60 true [] [] "sid"
              example.world)
    as (store & w1 & s & err & w2 & Hnew & Hrun & Hown);
    [intros _; reflexivity|].
  exists store, w1, s, err, w2. eexists.
  split; [exact Hnew|]. split; [exact Hrun|]. split; [exact Hown|].
  split; reflexivity.
Defined.
